(** * The training orchestrator of rlkit-relational

    A shallow embedding of [rlkit/core/rl_algorithm.py] (class [RLAlgorithm])
    and the properties of its control loop: when training and evaluation
    are legal, how rollouts end, how the two collection modes schedule the
    training phase, configuration errors, the accelerator hand-off and the
    rank-gated persistence.

    Python objects are mutated in place; here every method is a function
    from the program state to an outcome that carries the result (a value
    or a raised exception), the state left behind (also when an exception
    was raised: mutations made before the raise persist) and the calls
    made to collaborators, in order. *)

From Stdlib Require Import ZArith.
From stdpp Require Import base gmap strings list.

Local Open Scope Z_scope.

(** ** Exceptions and results *)

Inductive exn : Type :=
| AssertionError
| TypeError (what : string)
| AttributeError (name : string)
| KeyError (key : string)
| IndexError
| ZeroDivisionError
| NotImplementedError
| UpdateError (code : Z).

Inductive result (A : Type) : Type :=
| Ok (a : A)
| Raise (e : exn).
Arguments Ok {A} a.
Arguments Raise {A} e.

Definition is_ok {A} (r : result A) : bool :=
  match r with Ok _ => true | Raise _ => false end.

(** Python's [a % b] on integers: the sign follows the divisor, as
    [Z.modulo] does; a zero divisor raises. *)
Definition py_mod (a b : Z) : result Z :=
  if b =? 0 then Raise ZeroDivisionError else Ok (a mod b).

(** ** Data that flows through the loop *)

(** The value types are those of the environment and of the policies; the
    orchestrator only moves them around.  [Scalar] stands for the floats
    (rewards, durations, statistics). *)
Class Data := {
  Obs : Type;
  Action : Type;
  AgentInfo : Type;
  EnvInfo : Type;
  Mask : Type;
  Scalar : Type;
  scalar_of_Z : Z → Scalar;
  scalar_add : Scalar → Scalar → Scalar;
  scalar_sub : Scalar → Scalar → Scalar;
  scalar_mul : Scalar → Scalar → Scalar;
}.

Section DataModel.
Context `{Data}.

(** One transition, with the keyword names [_handle_step] passes to
    [PathBuilder.add_all] and to [replay_buffer.add_sample]. *)
Record Transition := {
  t_observation : Obs;
  t_action : Action;
  t_reward : Scalar;
  t_next_observation : Obs;
  t_terminal : bool;
  t_agent_info : AgentInfo;
  t_env_info : EnvInfo;
}.

(** A materialized trajectory: every field stacked across the transitions. *)
Record Path := {
  observations : list Obs;
  actions : list Action;
  rewards : list Scalar;
  next_observations : list Obs;
  terminals : list bool;
  agent_infos : list AgentInfo;
  env_infos : list EnvInfo;
}.

(** Modelled from the spec: the trajectory builder
    ([rlkit.data_management.path_builder.PathBuilder] is not part of the
    sources at hand).  Section 4.1: [append] adds one transition and nothing
    else, [length] is the number of transitions accumulated, and
    materializing stacks every field across the accumulated transitions into
    parallel ordered sequences. *)
Definition PathBuilder := list Transition.

Definition PathBuilder_new : PathBuilder := [].

Definition add_all (t : Transition) (pb : PathBuilder) : PathBuilder :=
  pb ++ [t].

Definition pb_len (pb : PathBuilder) : Z := Z.of_nat (length pb).

Definition get_all_stacked (pb : PathBuilder) : Path :=
  {| observations := t_observation <$> pb;
     actions := t_action <$> pb;
     rewards := t_reward <$> pb;
     next_observations := t_next_observation <$> pb;
     terminals := t_terminal <$> pb;
     agent_infos := t_agent_info <$> pb;
     env_infos := t_env_info <$> pb |}.

(** A cell of the tabular report. *)
Inductive Cell :=
| CInt (z : Z)
| CScalar (x : Scalar).

(** The lines handed to [logger.log]. *)
Inductive LogLine :=
| LogCollectingSamples
| LogSkippingEval
| LogEpochDuration (d : Scalar)
| LogStartedTraining (b : bool).

(** How a call passes the optional [num_blocks] keyword. *)
Inductive NumBlocksArg :=
| NumBlocksOmitted
| NumBlocksNone
| NumBlocksOf (n : Z).

(** An [OrderedDict] with string keys: [od_set] overwrites in place or
    appends, [od_update] does so for every item of the second dictionary. *)
Fixpoint od_set {V} (k : string) (v : V) (d : list (string * V))
  : list (string * V) :=
  match d with
  | [] => [(k, v)]
  | (k', v') :: d' =>
      if String.eqb k k' then (k, v) :: d' else (k', v') :: od_set k v d'
  end.

Definition od_update {V} (d new : list (string * V)) : list (string * V) :=
  fold_left (λ acc kv, od_set kv.1 kv.2 acc) new d.

Fixpoint od_get {V} (k : string) (d : list (string * V)) : option V :=
  match d with
  | [] => None
  | (k', v) :: d' => if String.eqb k k' then Some v else od_get k d'
  end.

End DataModel.

(** ** Collaborators

    Everything the orchestrator calls but does not define: the environment,
    the policies, the replay buffer, the evaluation sampler, [eval_util],
    the [logger] module and the [gtimer] stamps.  Each is a state type with
    the operations the orchestrator uses; none of their code is under
    [rlkit/core/rl_algorithm.py]. *)
Class Collaborators `{Data} := {
  (* the reporting sink, module [logger] *)
  Logger : Type;
  logger_push_prefix : Z → Logger → Logger;
  logger_pop_prefix : Logger → Logger;
  logger_log : LogLine → Logger → Logger;
  logger_record_tabular : string → Cell → Logger → Logger;
  logger_get_table_key_set : Logger → gset string;
  logger_update_header : Logger → Logger;
  logger_dump_tabular : Logger → Logger;
  (* the environment; [env_train], [env_eval], [env_num_blocks],
     [env_log_diagnostics] and [env_get_diagnostics] are optional
     attributes, [None] when the object lacks them *)
  Env : Type;
  env_step : Action → Env → (Obs * Scalar * bool * EnvInfo) * Env;
  env_reset : Env → Obs * Env;
  env_render : Env → Env;
  env_render_close : Env → Env;
  env_num_blocks : Env → option Z;
  env_train : Env → option Env;
  env_eval : Env → option Env;
  env_log_diagnostics : list Path → Env → Logger → option (Env * Logger);
  env_get_diagnostics : list Path → Env → option (list (string * Scalar) * Env);
  (* exploration and evaluation policies *)
  Policy : Type;
  policy_reset : Policy → Policy;
  policy_set_num_steps_total : Z → Policy → Policy;
  policy_get_action : Obs → Policy → (Action * AgentInfo) * Policy;
  (* the replay buffer *)
  ReplayBuffer : Type;
  EnvReplayBuffer : Z → Env → ReplayBuffer;
  rb_add_sample : Transition → ReplayBuffer → ReplayBuffer;
  rb_terminate_episode : ReplayBuffer → ReplayBuffer;
  rb_num_steps_can_sample : ReplayBuffer → Z;
  rb_max_num_blocks : ReplayBuffer → option Z;
  (* the evaluation sampler *)
  Sampler : Type;
  InPlacePathSampler : Env → Policy → Z → Z → Sampler;
  obtain_samples : Sampler → list Path * Sampler;
  (* [eval_util] and [relational_util] *)
  get_generic_path_information :
    list Path → string → NumBlocksArg → list (string * Scalar);
  get_average_returns : list Path → Scalar;
  get_masks : Z → Z → Z → Mask;
  (* [gtimer]: named stamps per iteration, and the wall clock *)
  Timer : Type;
  gt_reset : Timer → Timer;
  gt_set_def_unique : bool → Timer → Timer;
  gt_stamp : string → Timer → Timer;
  gt_itrs : Timer → list (string * list Scalar);
  gt_itrs_assign : string → list Scalar → Timer → Timer;
  gt_total : Timer → Scalar;
  time_time : Timer → Scalar;
  (* [str.title] *)
  str_title : string → string;
  (* what the concrete algorithm keeps on [self]: networks, optimizers *)
  Learner : Type;
}.

(** ** The deployment: module-level state that never changes during a run *)

(** [MPI] is [None] when [from mpi4py import MPI] failed, and otherwise
    holds [MPI.COMM_WORLD.Get_rank()].  [ptu_mode] is [ptu.get_mode()]. *)
Record Deployment := {
  MPI : option Z;
  ptu_mode : option string;
}.

(** Truth value of [ptu.get_mode()]: [None] and the empty string are false. *)
Definition mode_truthy (m : option string) : bool :=
  match m with
  | Some s => negb (String.eqb s "")
  | None => false
  end.

Definition mode_is (m : option string) (name : string) : bool :=
  match m with
  | Some s => String.eqb s name
  | None => false
  end.

Inductive Device :=
| cpu
| cuda (id : Z).

#[global] Instance Device_eq_dec : EqDecision Device.
Proof. solve_decision. Defined.

(** ** The orchestrator's state *)

Section StateModel.
Context `{Collaborators}.

(** [self.eval_policy]: the constructor may leave it [None], bind it to the
    very object that is the exploration policy, or to a policy of its own. *)
Inductive EvalPolicy :=
| EvalPolicyNone
| EvalPolicyIsExploration
| EvalPolicyOwn (p : Policy).

(** The attributes the methods assign to, followed by the module-level
    state they reach: the device [ptu] has selected, the [logger] and the
    [gtimer] stamps.  [device] is where the trainable components reside
    (what [self.to] moves) and [learner] is the rest of the subclass. *)
Record State := {
  training_env : Env;
  env : Env;
  exploration_policy : Policy;
  eval_policy : EvalPolicy;
  eval_sampler : Sampler;
  eval_statistics : list (string * Scalar);
  need_to_update_eval_statistics : bool;
  replay_buffer : ReplayBuffer;
  _n_env_steps_total : Z;
  _n_train_steps_total : Z;
  _n_rollouts_total : Z;
  _do_train_time : Z;
  _epoch_start_time : option Scalar;
  _old_table_keys : option (gset string);
  _current_path_builder : PathBuilder;
  _exploration_paths : list Path;
  device : Device;
  learner : Learner;
  ptu_device : Device;
  logger : Logger;
  gt : Timer;
}.

Definition with_training_env (x : Env) (s : State) : State :=
  {| training_env := x; env := env s;
     exploration_policy := exploration_policy s;
     eval_policy := eval_policy s; eval_sampler := eval_sampler s;
     eval_statistics := eval_statistics s;
     need_to_update_eval_statistics := need_to_update_eval_statistics s;
     replay_buffer := replay_buffer s;
     _n_env_steps_total := _n_env_steps_total s;
     _n_train_steps_total := _n_train_steps_total s;
     _n_rollouts_total := _n_rollouts_total s;
     _do_train_time := _do_train_time s;
     _epoch_start_time := _epoch_start_time s;
     _old_table_keys := _old_table_keys s;
     _current_path_builder := _current_path_builder s;
     _exploration_paths := _exploration_paths s; device := device s;
     learner := learner s; ptu_device := ptu_device s; logger := logger s;
     gt := gt s |}.

Definition with_env (x : Env) (s : State) : State :=
  {| training_env := training_env s; env := x;
     exploration_policy := exploration_policy s;
     eval_policy := eval_policy s; eval_sampler := eval_sampler s;
     eval_statistics := eval_statistics s;
     need_to_update_eval_statistics := need_to_update_eval_statistics s;
     replay_buffer := replay_buffer s;
     _n_env_steps_total := _n_env_steps_total s;
     _n_train_steps_total := _n_train_steps_total s;
     _n_rollouts_total := _n_rollouts_total s;
     _do_train_time := _do_train_time s;
     _epoch_start_time := _epoch_start_time s;
     _old_table_keys := _old_table_keys s;
     _current_path_builder := _current_path_builder s;
     _exploration_paths := _exploration_paths s; device := device s;
     learner := learner s; ptu_device := ptu_device s; logger := logger s;
     gt := gt s |}.

Definition with_exploration_policy (x : Policy) (s : State) : State :=
  {| training_env := training_env s; env := env s; exploration_policy := x;
     eval_policy := eval_policy s; eval_sampler := eval_sampler s;
     eval_statistics := eval_statistics s;
     need_to_update_eval_statistics := need_to_update_eval_statistics s;
     replay_buffer := replay_buffer s;
     _n_env_steps_total := _n_env_steps_total s;
     _n_train_steps_total := _n_train_steps_total s;
     _n_rollouts_total := _n_rollouts_total s;
     _do_train_time := _do_train_time s;
     _epoch_start_time := _epoch_start_time s;
     _old_table_keys := _old_table_keys s;
     _current_path_builder := _current_path_builder s;
     _exploration_paths := _exploration_paths s; device := device s;
     learner := learner s; ptu_device := ptu_device s; logger := logger s;
     gt := gt s |}.

Definition with_eval_sampler (x : Sampler) (s : State) : State :=
  {| training_env := training_env s; env := env s;
     exploration_policy := exploration_policy s;
     eval_policy := eval_policy s; eval_sampler := x;
     eval_statistics := eval_statistics s;
     need_to_update_eval_statistics := need_to_update_eval_statistics s;
     replay_buffer := replay_buffer s;
     _n_env_steps_total := _n_env_steps_total s;
     _n_train_steps_total := _n_train_steps_total s;
     _n_rollouts_total := _n_rollouts_total s;
     _do_train_time := _do_train_time s;
     _epoch_start_time := _epoch_start_time s;
     _old_table_keys := _old_table_keys s;
     _current_path_builder := _current_path_builder s;
     _exploration_paths := _exploration_paths s; device := device s;
     learner := learner s; ptu_device := ptu_device s; logger := logger s;
     gt := gt s |}.

Definition with_need_to_update_eval_statistics (x : bool) (s : State) : State :=
  {| training_env := training_env s; env := env s;
     exploration_policy := exploration_policy s;
     eval_policy := eval_policy s; eval_sampler := eval_sampler s;
     eval_statistics := eval_statistics s;
     need_to_update_eval_statistics := x; replay_buffer := replay_buffer s;
     _n_env_steps_total := _n_env_steps_total s;
     _n_train_steps_total := _n_train_steps_total s;
     _n_rollouts_total := _n_rollouts_total s;
     _do_train_time := _do_train_time s;
     _epoch_start_time := _epoch_start_time s;
     _old_table_keys := _old_table_keys s;
     _current_path_builder := _current_path_builder s;
     _exploration_paths := _exploration_paths s; device := device s;
     learner := learner s; ptu_device := ptu_device s; logger := logger s;
     gt := gt s |}.

Definition with_replay_buffer (x : ReplayBuffer) (s : State) : State :=
  {| training_env := training_env s; env := env s;
     exploration_policy := exploration_policy s;
     eval_policy := eval_policy s; eval_sampler := eval_sampler s;
     eval_statistics := eval_statistics s;
     need_to_update_eval_statistics := need_to_update_eval_statistics s;
     replay_buffer := x; _n_env_steps_total := _n_env_steps_total s;
     _n_train_steps_total := _n_train_steps_total s;
     _n_rollouts_total := _n_rollouts_total s;
     _do_train_time := _do_train_time s;
     _epoch_start_time := _epoch_start_time s;
     _old_table_keys := _old_table_keys s;
     _current_path_builder := _current_path_builder s;
     _exploration_paths := _exploration_paths s; device := device s;
     learner := learner s; ptu_device := ptu_device s; logger := logger s;
     gt := gt s |}.

Definition with_n_env_steps_total (x : Z) (s : State) : State :=
  {| training_env := training_env s; env := env s;
     exploration_policy := exploration_policy s;
     eval_policy := eval_policy s; eval_sampler := eval_sampler s;
     eval_statistics := eval_statistics s;
     need_to_update_eval_statistics := need_to_update_eval_statistics s;
     replay_buffer := replay_buffer s; _n_env_steps_total := x;
     _n_train_steps_total := _n_train_steps_total s;
     _n_rollouts_total := _n_rollouts_total s;
     _do_train_time := _do_train_time s;
     _epoch_start_time := _epoch_start_time s;
     _old_table_keys := _old_table_keys s;
     _current_path_builder := _current_path_builder s;
     _exploration_paths := _exploration_paths s; device := device s;
     learner := learner s; ptu_device := ptu_device s; logger := logger s;
     gt := gt s |}.

Definition with_n_train_steps_total (x : Z) (s : State) : State :=
  {| training_env := training_env s; env := env s;
     exploration_policy := exploration_policy s;
     eval_policy := eval_policy s; eval_sampler := eval_sampler s;
     eval_statistics := eval_statistics s;
     need_to_update_eval_statistics := need_to_update_eval_statistics s;
     replay_buffer := replay_buffer s;
     _n_env_steps_total := _n_env_steps_total s; _n_train_steps_total := x;
     _n_rollouts_total := _n_rollouts_total s;
     _do_train_time := _do_train_time s;
     _epoch_start_time := _epoch_start_time s;
     _old_table_keys := _old_table_keys s;
     _current_path_builder := _current_path_builder s;
     _exploration_paths := _exploration_paths s; device := device s;
     learner := learner s; ptu_device := ptu_device s; logger := logger s;
     gt := gt s |}.

Definition with_n_rollouts_total (x : Z) (s : State) : State :=
  {| training_env := training_env s; env := env s;
     exploration_policy := exploration_policy s;
     eval_policy := eval_policy s; eval_sampler := eval_sampler s;
     eval_statistics := eval_statistics s;
     need_to_update_eval_statistics := need_to_update_eval_statistics s;
     replay_buffer := replay_buffer s;
     _n_env_steps_total := _n_env_steps_total s;
     _n_train_steps_total := _n_train_steps_total s; _n_rollouts_total := x;
     _do_train_time := _do_train_time s;
     _epoch_start_time := _epoch_start_time s;
     _old_table_keys := _old_table_keys s;
     _current_path_builder := _current_path_builder s;
     _exploration_paths := _exploration_paths s; device := device s;
     learner := learner s; ptu_device := ptu_device s; logger := logger s;
     gt := gt s |}.

Definition with_do_train_time (x : Z) (s : State) : State :=
  {| training_env := training_env s; env := env s;
     exploration_policy := exploration_policy s;
     eval_policy := eval_policy s; eval_sampler := eval_sampler s;
     eval_statistics := eval_statistics s;
     need_to_update_eval_statistics := need_to_update_eval_statistics s;
     replay_buffer := replay_buffer s;
     _n_env_steps_total := _n_env_steps_total s;
     _n_train_steps_total := _n_train_steps_total s;
     _n_rollouts_total := _n_rollouts_total s; _do_train_time := x;
     _epoch_start_time := _epoch_start_time s;
     _old_table_keys := _old_table_keys s;
     _current_path_builder := _current_path_builder s;
     _exploration_paths := _exploration_paths s; device := device s;
     learner := learner s; ptu_device := ptu_device s; logger := logger s;
     gt := gt s |}.

Definition with_epoch_start_time (x : option Scalar) (s : State) : State :=
  {| training_env := training_env s; env := env s;
     exploration_policy := exploration_policy s;
     eval_policy := eval_policy s; eval_sampler := eval_sampler s;
     eval_statistics := eval_statistics s;
     need_to_update_eval_statistics := need_to_update_eval_statistics s;
     replay_buffer := replay_buffer s;
     _n_env_steps_total := _n_env_steps_total s;
     _n_train_steps_total := _n_train_steps_total s;
     _n_rollouts_total := _n_rollouts_total s;
     _do_train_time := _do_train_time s; _epoch_start_time := x;
     _old_table_keys := _old_table_keys s;
     _current_path_builder := _current_path_builder s;
     _exploration_paths := _exploration_paths s; device := device s;
     learner := learner s; ptu_device := ptu_device s; logger := logger s;
     gt := gt s |}.

Definition with_old_table_keys (x : option (gset string)) (s : State) : State :=
  {| training_env := training_env s; env := env s;
     exploration_policy := exploration_policy s;
     eval_policy := eval_policy s; eval_sampler := eval_sampler s;
     eval_statistics := eval_statistics s;
     need_to_update_eval_statistics := need_to_update_eval_statistics s;
     replay_buffer := replay_buffer s;
     _n_env_steps_total := _n_env_steps_total s;
     _n_train_steps_total := _n_train_steps_total s;
     _n_rollouts_total := _n_rollouts_total s;
     _do_train_time := _do_train_time s;
     _epoch_start_time := _epoch_start_time s; _old_table_keys := x;
     _current_path_builder := _current_path_builder s;
     _exploration_paths := _exploration_paths s; device := device s;
     learner := learner s; ptu_device := ptu_device s; logger := logger s;
     gt := gt s |}.

Definition with_current_path_builder (x : PathBuilder) (s : State) : State :=
  {| training_env := training_env s; env := env s;
     exploration_policy := exploration_policy s;
     eval_policy := eval_policy s; eval_sampler := eval_sampler s;
     eval_statistics := eval_statistics s;
     need_to_update_eval_statistics := need_to_update_eval_statistics s;
     replay_buffer := replay_buffer s;
     _n_env_steps_total := _n_env_steps_total s;
     _n_train_steps_total := _n_train_steps_total s;
     _n_rollouts_total := _n_rollouts_total s;
     _do_train_time := _do_train_time s;
     _epoch_start_time := _epoch_start_time s;
     _old_table_keys := _old_table_keys s; _current_path_builder := x;
     _exploration_paths := _exploration_paths s; device := device s;
     learner := learner s; ptu_device := ptu_device s; logger := logger s;
     gt := gt s |}.

Definition with_exploration_paths (x : list Path) (s : State) : State :=
  {| training_env := training_env s; env := env s;
     exploration_policy := exploration_policy s;
     eval_policy := eval_policy s; eval_sampler := eval_sampler s;
     eval_statistics := eval_statistics s;
     need_to_update_eval_statistics := need_to_update_eval_statistics s;
     replay_buffer := replay_buffer s;
     _n_env_steps_total := _n_env_steps_total s;
     _n_train_steps_total := _n_train_steps_total s;
     _n_rollouts_total := _n_rollouts_total s;
     _do_train_time := _do_train_time s;
     _epoch_start_time := _epoch_start_time s;
     _old_table_keys := _old_table_keys s;
     _current_path_builder := _current_path_builder s;
     _exploration_paths := x; device := device s; learner := learner s;
     ptu_device := ptu_device s; logger := logger s; gt := gt s |}.

Definition with_device (x : Device) (s : State) : State :=
  {| training_env := training_env s; env := env s;
     exploration_policy := exploration_policy s;
     eval_policy := eval_policy s; eval_sampler := eval_sampler s;
     eval_statistics := eval_statistics s;
     need_to_update_eval_statistics := need_to_update_eval_statistics s;
     replay_buffer := replay_buffer s;
     _n_env_steps_total := _n_env_steps_total s;
     _n_train_steps_total := _n_train_steps_total s;
     _n_rollouts_total := _n_rollouts_total s;
     _do_train_time := _do_train_time s;
     _epoch_start_time := _epoch_start_time s;
     _old_table_keys := _old_table_keys s;
     _current_path_builder := _current_path_builder s;
     _exploration_paths := _exploration_paths s; device := x;
     learner := learner s; ptu_device := ptu_device s; logger := logger s;
     gt := gt s |}.

Definition with_ptu_device (x : Device) (s : State) : State :=
  {| training_env := training_env s; env := env s;
     exploration_policy := exploration_policy s;
     eval_policy := eval_policy s; eval_sampler := eval_sampler s;
     eval_statistics := eval_statistics s;
     need_to_update_eval_statistics := need_to_update_eval_statistics s;
     replay_buffer := replay_buffer s;
     _n_env_steps_total := _n_env_steps_total s;
     _n_train_steps_total := _n_train_steps_total s;
     _n_rollouts_total := _n_rollouts_total s;
     _do_train_time := _do_train_time s;
     _epoch_start_time := _epoch_start_time s;
     _old_table_keys := _old_table_keys s;
     _current_path_builder := _current_path_builder s;
     _exploration_paths := _exploration_paths s; device := device s;
     learner := learner s; ptu_device := x; logger := logger s;
     gt := gt s |}.

Definition with_logger (x : Logger) (s : State) : State :=
  {| training_env := training_env s; env := env s;
     exploration_policy := exploration_policy s;
     eval_policy := eval_policy s; eval_sampler := eval_sampler s;
     eval_statistics := eval_statistics s;
     need_to_update_eval_statistics := need_to_update_eval_statistics s;
     replay_buffer := replay_buffer s;
     _n_env_steps_total := _n_env_steps_total s;
     _n_train_steps_total := _n_train_steps_total s;
     _n_rollouts_total := _n_rollouts_total s;
     _do_train_time := _do_train_time s;
     _epoch_start_time := _epoch_start_time s;
     _old_table_keys := _old_table_keys s;
     _current_path_builder := _current_path_builder s;
     _exploration_paths := _exploration_paths s; device := device s;
     learner := learner s; ptu_device := ptu_device s; logger := x;
     gt := gt s |}.

Definition with_gt (x : Timer) (s : State) : State :=
  {| training_env := training_env s; env := env s;
     exploration_policy := exploration_policy s;
     eval_policy := eval_policy s; eval_sampler := eval_sampler s;
     eval_statistics := eval_statistics s;
     need_to_update_eval_statistics := need_to_update_eval_statistics s;
     replay_buffer := replay_buffer s;
     _n_env_steps_total := _n_env_steps_total s;
     _n_train_steps_total := _n_train_steps_total s;
     _n_rollouts_total := _n_rollouts_total s;
     _do_train_time := _do_train_time s;
     _epoch_start_time := _epoch_start_time s;
     _old_table_keys := _old_table_keys s;
     _current_path_builder := _current_path_builder s;
     _exploration_paths := _exploration_paths s; device := device s;
     learner := learner s; ptu_device := ptu_device s; logger := logger s;
     gt := x |}.

(** The attributes [__init__] assigns once and no method reassigns. *)
Record Params := {
  num_epochs : Z;
  num_env_steps_per_epoch : Z;
  num_steps_per_eval : Z;
  num_updates_per_train_call : Z;
  batch_size : Z;
  max_path_length : Z;
  discount : Scalar;
  replay_buffer_size : Z;
  reward_scale : Scalar;
  render : bool;
  collection_mode : string;
  save_replay_buffer : bool;
  save_algorithm : bool;
  save_environment : bool;
  min_num_steps_before_training : Z;
  save_extra_data_interval : Z;
  gpu_id : option Z;
  num_epochs_per_eval : Z;
  num_epochs_per_param_save : Z;
}.

(** What [get_epoch_snapshot] and [get_extra_data_to_save] build. *)
Record Snapshot := {
  snap_epoch : Z;
  snap_exploration_policy : Policy;
  snap_eval_policy : option Policy;
  snap_env : option Env;
}.

Record ExtraData := {
  xd_epoch : Z;
  xd_env : option Env;
  xd_replay_buffer : option ReplayBuffer;
  xd_algorithm : option State;
}.

(** The calls worth observing, in the order they are made.  [EvTryToTrain]
    and [EvEvaluate] mark the entry of [_try_to_train] and of [evaluate];
    the others are calls to collaborators or to subclass methods. *)
Inductive Event :=
| EvEnvStep (a : Action)
| EvEnvReset
| EvTerminateEpisode
| EvTryToTrain
| EvSetDevice (d : Device)
| EvTo (d : Device)
| EvTrainingMode (mode : bool)
| EvDoTraining
| EvEvaluate (epoch : Z)
| EvObtainSamples
| EvSaveExtraData (x : ExtraData)
| EvSaveItrParams (epoch : Z) (p : Snapshot)
| EvUpdateHeader
| EvDumpTabular.

(** ** The monad of methods *)

Record Outcome (A : Type) := {
  res : result A;
  post : State;
  events : list Event;
}.
Arguments res {A} o.
Arguments post {A} o.
Arguments events {A} o.

Definition M (A : Type) : Type := State → Outcome A.

#[global] Instance M_ret : MRet M := λ A a s,
  {| res := Ok a; post := s; events := [] |}.

#[global] Instance M_bind : MBind M := λ A B f m s,
  let o := m s in
  match res o with
  | Ok a =>
      let o' := f a (post o) in
      {| res := res o'; post := post o'; events := events o ++ events o' |}
  | Raise e => {| res := Raise e; post := post o; events := events o |}
  end.

Definition raise {A} (e : exn) : M A := λ s,
  {| res := Raise e; post := s; events := [] |}.

Definition gets {A} (f : State → A) : M A := λ s,
  {| res := Ok (f s); post := s; events := [] |}.

Definition modify (f : State → State) : M unit := λ s,
  {| res := Ok tt; post := f s; events := [] |}.

Definition emit (e : Event) : M unit := λ s,
  {| res := Ok tt; post := s; events := [e] |}.

Definition lift_result {A} (r : result A) : M A :=
  match r with
  | Ok a => mret a
  | Raise e => raise e
  end.

Definition when (b : bool) (m : M unit) : M unit :=
  if b then m else mret tt.

(** [for _ in range(n): body] *)
Fixpoint for_range (n : nat) (body : M unit) : M unit :=
  match n with
  | O => mret tt
  | S n' => body ;; for_range n' body
  end.

(** [for x in xs: body(x)] *)
Fixpoint for_each {A} (xs : list A) (body : A → M unit) : M unit :=
  match xs with
  | [] => mret tt
  | x :: xs' => body x ;; for_each xs' body
  end.

(** ** Methods a subclass supplies

    [training_mode] and [_do_training] are abstract.  [_handle_step] is
    listed with them because [_take_step_in_env] calls it with a [mask]
    keyword that the definition in this class does not accept (see
    [RLAlgorithm_handle_step]).  A subclass method may assign to any
    attribute; an update, a step handler and a post-epoch function may also
    raise, and then return the state they leave behind. *)
Definition Hook (A : Type) : Type := State → result A * State.

Definition call {A} (h : Hook A) : M A := λ s,
  {| res := (h s).1; post := (h s).2; events := [] |}.

Record Methods := {
  training_mode : bool → State → State;
  _do_training : Hook unit;
  _handle_step :
    Obs → Action → Scalar → Obs → bool → AgentInfo → EnvInfo →
    option Mask → Hook unit;
  post_epoch_funcs : list (Z → Hook unit);
}.

End StateModel.

Arguments res {_ _ A} o.
Arguments post {_ _ A} o.
Arguments events {_ _ A} o.

(** ** The methods of [RLAlgorithm] *)

Section Orchestrator.
Context `{Collaborators}.
Variable D : Deployment.
Variable P : Params.
Variable Mt : Methods.

(** [MPI and MPI.COMM_WORLD.Get_rank() == 0] *)
Definition is_rank0 : bool :=
  match MPI D with
  | Some rank => rank =? 0
  | None => false
  end.

(** [set_to_train_mode(env)] and [set_to_eval_mode(env)]: call the method
    when the object has it. *)
Definition set_to_train_mode (e : Env) : Env := default e (env_train e).
Definition set_to_eval_mode (e : Env) : Env := default e (env_eval e).

Definition _can_evaluate (s : State) : bool :=
  (0 <? Z.of_nat (length (_exploration_paths s)))
  && negb (need_to_update_eval_statistics s).

Definition _can_train (s : State) : bool :=
  min_num_steps_before_training P
    <=? rb_num_steps_can_sample (replay_buffer s).

Definition _get_action_and_info (observation : Obs) : M (Action * AgentInfo) :=
  modify (λ s, with_exploration_policy
                 (policy_set_num_steps_total (_n_env_steps_total s)
                    (exploration_policy s)) s) ;;
  r ← gets (λ s, policy_get_action observation (exploration_policy s)) ;
  modify (with_exploration_policy r.2) ;;
  mret r.1.

Definition _start_epoch (epoch : Z) : M unit :=
  modify (λ s, with_epoch_start_time (Some (time_time (gt s))) s) ;;
  modify (with_exploration_paths []) ;;
  modify (with_do_train_time 0) ;;
  modify (λ s, with_logger (logger_push_prefix epoch (logger s)) s).

Definition _end_epoch (epoch : Z) : M unit :=
  start ← gets _epoch_start_time ;
  match start with
  | None => raise (TypeError "unsupported operand type(s) for -")
  | Some t0 =>
      modify (λ s, with_logger
                     (logger_log
                        (LogEpochDuration (scalar_sub (time_time (gt s)) t0))
                        (logger s)) s)
  end ;;
  modify (λ s, with_logger
                 (logger_log (LogStartedTraining (_can_train s)) (logger s)) s) ;;
  modify (λ s, with_logger (logger_pop_prefix (logger s)) s) ;;
  for_each (post_epoch_funcs Mt) (λ post_epoch_func, call (post_epoch_func epoch)).

Definition _start_new_rollout : M Obs :=
  modify (λ s, with_exploration_policy (policy_reset (exploration_policy s)) s) ;;
  emit EvEnvReset ;;
  r ← gets (λ s, env_reset (training_env s)) ;
  modify (with_training_env r.2) ;;
  mret r.1.

(** [_handle_step] as this class defines it.  Its signature has no [mask]
    parameter, so the call with [mask=...] that [_take_step_in_env] makes
    raises a [TypeError] before the body runs; a call without the keyword
    records the transition in the path builder and in the replay buffer. *)
Definition RLAlgorithm_handle_step
    (observation : Obs) (action : Action) (reward : Scalar)
    (next_observation : Obs) (terminal : bool)
    (agent_info : AgentInfo) (env_info : EnvInfo)
    (mask : option Mask) : Hook unit := λ s,
  match mask with
  | Some _ => (Raise (TypeError "unexpected keyword argument mask"), s)
  | None =>
      let t := {| t_observation := observation;
                  t_action := action;
                  t_reward := reward;
                  t_next_observation := next_observation;
                  t_terminal := terminal;
                  t_agent_info := agent_info;
                  t_env_info := env_info |} in
      let s1 := with_current_path_builder
                  (add_all t (_current_path_builder s)) s in
      (Ok tt, with_replay_buffer (rb_add_sample t (replay_buffer s1)) s1)
  end.

Definition _handle_rollout_ending : M unit :=
  emit EvTerminateEpisode ;;
  modify (λ s, with_replay_buffer (rb_terminate_episode (replay_buffer s)) s) ;;
  modify (λ s, with_n_rollouts_total (_n_rollouts_total s + 1) s) ;;
  n ← gets (λ s, pb_len (_current_path_builder s)) ;
  if 0 <? n then
    path ← gets (λ s, get_all_stacked (_current_path_builder s)) ;
    modify (λ s, with_exploration_paths (_exploration_paths s ++ [path]) s) ;;
    modify (with_current_path_builder PathBuilder_new)
  else mret tt.

(** Lines 225 to 260 of [_take_step_in_env]: everything up to and
    including the call of [_handle_step].  It returns what the environment
    answered: the next observation and the terminal flag. *)
Definition take_step_record (observation : Obs) : M (Obs * bool) :=
  '(action, agent_info) ← _get_action_and_info observation ;
  when (render P)
    (modify (λ s, with_training_env (env_render (training_env s)) s)) ;;
  emit (EvEnvStep action) ;;
  r ← gets (λ s, env_step action (training_env s)) ;
  modify (with_training_env r.2) ;;
  let '(next_ob, raw_reward, terminal, env_info) := r.1 in
  modify (λ s, with_n_env_steps_total (_n_env_steps_total s + 1) s) ;;
  let reward := scalar_mul raw_reward (reward_scale P) in
  num_blocks ← gets (λ s, env_num_blocks (training_env s)) ;
  num_blocks ← match num_blocks with
               | Some n => mret n
               | None => raise (AttributeError "num_blocks")
               end ;
  max_num_blocks ← gets (λ s, rb_max_num_blocks (replay_buffer s)) ;
  max_num_blocks ← match max_num_blocks with
                   | Some n => mret n
                   | None => raise (AttributeError "max_num_blocks")
                   end ;
  call (_handle_step Mt observation action reward next_ob terminal
          agent_info env_info (Some (get_masks num_blocks max_num_blocks 1))) ;;
  mret (next_ob, terminal).

Definition _take_step_in_env (observation : Obs) : M Obs :=
  '(next_ob, terminal) ← take_step_record observation ;
  n ← gets (λ s, pb_len (_current_path_builder s)) ;
  if terminal || (max_path_length P <=? n) then
    _handle_rollout_ending ;;
    _start_new_rollout
  else
    mret next_ob.

(** Modelled from the spec: [ptu.set_device] and [self.to] (module
    [rlkit.torch.pytorch_util] and the subclass that defines [to] are not
    part of the sources at hand).  Section 4.4: the trainable components are
    moved onto the given device; [ptu] records the device it selected. *)
Definition ptu_set_device (d : Device) : M unit :=
  emit (EvSetDevice d) ;;
  modify (with_ptu_device d).

Definition to (d : Device) : M unit :=
  emit (EvTo d) ;;
  modify (with_device d).

Definition _try_to_train : M unit :=
  emit EvTryToTrain ;;
  when (mode_is (ptu_mode D) "gpu_opt")
    (match gpu_id P with
     | None => raise (AttributeError "gpu_id")
     | Some g =>
         ptu_set_device (cuda g) ;;
         to (cuda g)
     end) ;;
  can_train ← gets _can_train ;
  when can_train
    (emit (EvTrainingMode true) ;;
     modify (training_mode Mt true) ;;
     for_range (Z.to_nat (num_updates_per_train_call P))
       (emit EvDoTraining ;;
        call (_do_training Mt) ;;
        modify (λ s, with_n_train_steps_total (_n_train_steps_total s + 1) s)) ;;
     emit (EvTrainingMode false) ;;
     modify (training_mode Mt false)) ;;
  when (mode_is (ptu_mode D) "gpu_opt")
    (ptu_set_device cpu ;;
     to cpu).

Definition get_epoch_snapshot (epoch : Z) (s : State) : Snapshot :=
  {| snap_epoch := epoch;
     snap_exploration_policy := exploration_policy s;
     snap_eval_policy :=
       match eval_policy s with
       | EvalPolicyNone => None
       | EvalPolicyIsExploration => Some (exploration_policy s)
       | EvalPolicyOwn p => Some p
       end;
     snap_env := if save_environment P then Some (training_env s) else None |}.

Definition get_extra_data_to_save (epoch : Z) : M ExtraData :=
  when (render P)
    (modify (λ s, with_training_env (env_render_close (training_env s)) s)) ;;
  gets (λ s,
    {| xd_epoch := epoch;
       xd_env := if save_environment P then Some (training_env s) else None;
       xd_replay_buffer :=
         if save_replay_buffer P then Some (replay_buffer s) else None;
       xd_algorithm := if save_algorithm P then Some s else None |}).

Definition get_eval_paths : M (list Path) :=
  emit EvObtainSamples ;;
  r ← gets (λ s, obtain_samples (eval_sampler s)) ;
  modify (with_eval_sampler r.2) ;;
  mret r.1.

Definition record_tabular (key : string) (v : Cell) : M unit :=
  modify (λ s, with_logger (logger_record_tabular key v (logger s)) s).

Definition evaluate (epoch : Z) (eval_paths : option (list Path)) : M unit :=
  emit (EvEvaluate epoch) ;;
  statistics ← gets (λ s, od_update [] (eval_statistics s)) ;
  modify (λ s, with_logger (logger_log LogCollectingSamples (logger s)) s) ;;
  test_paths ← match eval_paths with
               | Some (p :: ps) => mret (p :: ps)
               | _ => get_eval_paths
               end ;
  num_blocks ← gets (λ s, env_num_blocks (env s)) ;
  exploration ← gets _exploration_paths ;
  let statistics :=
    match num_blocks with
    | Some n =>
        let st := od_update statistics
                    (get_generic_path_information test_paths "Test"
                       (NumBlocksOf n)) in
        if 0 <? Z.of_nat (length exploration) then
          od_update st
            (get_generic_path_information exploration "Exploration"
               NumBlocksOmitted)
        else st
    | None =>
        let st := od_update statistics
                    (get_generic_path_information test_paths "Test"
                       NumBlocksNone) in
        if 0 <? Z.of_nat (length exploration) then
          od_update st
            (get_generic_path_information exploration "Exploration"
               NumBlocksNone)
        else st
    end in
  modify (λ s, match env_log_diagnostics test_paths (env s) (logger s) with
               | Some (e, l) => with_logger l (with_env e s)
               | None => s
               end) ;;
  diagnostics ← gets (λ s, env_get_diagnostics test_paths (env s)) ;
  statistics ← match diagnostics with
               | Some (d, e) =>
                   modify (with_env e) ;; mret (od_update statistics d)
               | None => mret statistics
               end ;
  let average_returns := get_average_returns test_paths in
  let statistics := od_set "AverageReturn" average_returns statistics in
  for_each statistics (λ kv, record_tabular kv.1 (CScalar kv.2)) ;;
  modify (with_need_to_update_eval_statistics true).

(** [times_itrs[key][-1]] *)
Definition last_stamp (key : string) (itrs : list (string * list Scalar))
  : result Scalar :=
  match od_get key itrs with
  | None => Raise (KeyError key)
  | Some l =>
      match last l with
      | None => Raise IndexError
      | Some x => Ok x
      end
  end.

(** [sum(times_itrs[loop][-1] for loop in times_itrs.keys())] *)
Fixpoint sum_last_stamps (itrs : list (string * list Scalar)) (acc : Scalar)
  : result Scalar :=
  match itrs with
  | [] => Ok acc
  | (_, l) :: rest =>
      match last l with
      | None => Raise IndexError
      | Some x => sum_last_stamps rest (scalar_add acc x)
      end
  end.

(** Lines 291 to 299 of [_try_to_eval]: the persistence sub-step. *)
Definition save_checkpoints (epoch : Z) : M unit :=
  when is_rank0
    (r ← lift_result (py_mod epoch (save_extra_data_interval P)) ;
     when (r =? 0)
       (x ← get_extra_data_to_save epoch ;
        emit (EvSaveExtraData x)) ;;
     r ← lift_result (py_mod epoch (num_epochs_per_param_save P)) ;
     when (r =? 0)
       (params ← gets (get_epoch_snapshot epoch) ;
        emit (EvSaveItrParams epoch params))).

(** Lines 304 to 349: counters and timings recorded in the report row. *)
Definition record_counters_and_times (epoch : Z) : M unit :=
  n ← gets _n_train_steps_total ;
  record_tabular "Number of train steps total" (CInt n) ;;
  n ← gets _n_env_steps_total ;
  record_tabular "Number of env steps total" (CInt n) ;;
  n ← gets _n_rollouts_total ;
  record_tabular "Number of rollouts total" (CInt n) ;;
  times_itrs ← gets (λ s, gt_itrs (gt s)) ;
  train_time ← lift_result (sum_last_stamps times_itrs (scalar_of_Z 0)) ;
  sample_time ← lift_result (last_stamp "sample" times_itrs) ;
  '(times_itrs, eval_time) ←
    (if 0 <? epoch then
       eval_time ← lift_result (last_stamp "eval" times_itrs) ;
       mret (times_itrs, eval_time)
     else
       modify (λ s, with_gt (gt_itrs_assign "eval" [scalar_of_Z 0] (gt s)) s) ;;
       mret (od_set "eval" [scalar_of_Z 0] times_itrs, scalar_of_Z 0)) ;
  let epoch_time := scalar_add (scalar_add train_time sample_time) eval_time in
  total_time ← gets (λ s, gt_total (gt s)) ;
  for_each times_itrs (λ kv,
    x ← lift_result (last_stamp kv.1 times_itrs) ;
    record_tabular (str_title kv.1) (CScalar x)) ;;
  record_tabular "Train Time (s) ---" (CScalar train_time) ;;
  record_tabular "(Previous) Eval Time (s) ---" (CScalar eval_time) ;;
  record_tabular "Sample Time (s) ---" (CScalar sample_time) ;;
  record_tabular "Epoch Time (s)" (CScalar epoch_time) ;;
  record_tabular "Total Train Time (s)" (CScalar total_time) ;;
  record_tabular "Epoch" (CInt epoch).

(** Lines 351 to 361: the schema check and the emission of the row. *)
Definition check_table_keys_and_dump : M unit :=
  table_keys ← gets (λ s, logger_get_table_key_set (logger s)) ;
  old ← gets _old_table_keys ;
  match old with
  | Some old_keys =>
      if bool_decide (table_keys ≠ old_keys) then
        emit EvUpdateHeader ;;
        modify (λ s, with_logger (logger_update_header (logger s)) s) ;;
        raise NotImplementedError
      else mret tt
  | None => mret tt
  end ;;
  modify (with_old_table_keys (Some table_keys)) ;;
  emit EvDumpTabular ;;
  modify (λ s, with_logger (logger_dump_tabular (logger s)) s).

Definition _try_to_eval (epoch : Z) (eval_paths : option (list Path)) : M unit :=
  save_checkpoints epoch ;;
  can_evaluate ← gets _can_evaluate ;
  if (can_evaluate : bool) then
    evaluate epoch eval_paths ;;
    record_counters_and_times epoch ;;
    check_table_keys_and_dump
  else
    modify (λ s, with_logger (logger_log LogSkippingEval (logger s)) s).

Definition stamp (name : string) : M unit :=
  modify (λ s, with_gt (gt_stamp name (gt s)) s).

(** [for _ in range(...)] of [train_online]: a step, then a training
    phase, with the observation carried from one step to the next. *)
Fixpoint online_steps (n : nat) (observation : Obs) : M unit :=
  match n with
  | O => mret tt
  | S n' =>
      observation ← _take_step_in_env observation ;
      stamp "sample" ;;
      _try_to_train ;;
      stamp "train" ;;
      online_steps n' observation
  end.

(** The body of the epoch loop of [train_online]. *)
Definition online_epoch (epoch : Z) : M unit :=
  _start_epoch epoch ;;
  modify (λ s, with_training_env (set_to_train_mode (training_env s)) s) ;;
  observation ← _start_new_rollout ;
  online_steps (Z.to_nat (num_env_steps_per_epoch P)) observation ;;
  modify (λ s, with_env (set_to_eval_mode (env s)) s) ;;
  _try_to_eval epoch None ;;
  stamp "eval" ;;
  _end_epoch epoch.

(** [for _ in range(...)] of [train_batch]: steps only. *)
Fixpoint batch_steps (n : nat) (observation : Obs) : M unit :=
  match n with
  | O => mret tt
  | S n' =>
      observation ← _take_step_in_env observation ;
      batch_steps n' observation
  end.

(** The body of the epoch loop of [train_batch]. *)
Definition batch_epoch (epoch : Z) : M unit :=
  _start_epoch epoch ;;
  modify (λ s, with_training_env (set_to_train_mode (training_env s)) s) ;;
  observation ← _start_new_rollout ;
  batch_steps (Z.to_nat (num_env_steps_per_epoch P)) observation ;;
  stamp "sample" ;;
  _try_to_train ;;
  stamp "train" ;;
  modify (λ s, with_env (set_to_eval_mode (env s)) s) ;;
  r ← lift_result (py_mod epoch (num_epochs_per_eval P)) ;
  when (r =? 0)
    (_try_to_eval epoch None ;;
     stamp "eval") ;;
  _end_epoch epoch.

(** [range(start_epoch, self.num_epochs)] *)
Definition epoch_range (start_epoch : Z) : list Z :=
  seqZ start_epoch (num_epochs P - start_epoch).

Definition train_online (start_epoch : Z) : M unit :=
  modify (with_current_path_builder PathBuilder_new) ;;
  for_each (epoch_range start_epoch) online_epoch.

Definition train_batch (start_epoch : Z) : M unit :=
  modify (with_current_path_builder PathBuilder_new) ;;
  for_each (epoch_range start_epoch) batch_epoch.

Definition pretrain : M unit := mret tt.

Definition train (start_epoch : Z) : M unit :=
  pretrain ;;
  when ((start_epoch =? 0) && is_rank0)
    (params ← gets (get_epoch_snapshot (-1)) ;
     emit (EvSaveItrParams (-1) params)) ;;
  emit (EvTrainingMode false) ;;
  modify (training_mode Mt false) ;;
  modify (with_n_env_steps_total (start_epoch * num_env_steps_per_epoch P)) ;;
  modify (λ s, with_gt (gt_set_def_unique false (gt_reset (gt s))) s) ;;
  if String.eqb (collection_mode P) "online" then
    train_online start_epoch
  else if String.eqb (collection_mode P) "batch" then
    train_batch start_epoch
  else
    raise (TypeError "Invalid collection_mode").

End Orchestrator.

(** ** Construction *)

Section Construction.
Context `{Collaborators}.

(** The parameters of [__init__]; [None] is a keyword left at its default
    [None]. *)
Record Args := {
  arg_env : Env;
  arg_exploration_policy : Policy;
  arg_training_env : option Env;
  arg_num_epochs : Z;
  arg_num_steps_per_epoch : Z;
  arg_num_steps_per_eval : Z;
  arg_num_updates_per_env_step : Z;
  arg_num_updates_per_epoch : option Z;
  arg_batch_size : Z;
  arg_max_path_length : Z;
  arg_discount : Scalar;
  arg_replay_buffer_size : Z;
  arg_reward_scale : Scalar;
  arg_min_num_steps_before_training : option Z;
  arg_render : bool;
  arg_save_replay_buffer : bool;
  arg_save_algorithm : bool;
  arg_save_environment : bool;
  arg_eval_sampler : option Sampler;
  arg_eval_policy : option Policy;
  arg_replay_buffer : option ReplayBuffer;
  arg_collection_mode : string;
  arg_save_extra_data_interval : Z;
  arg_num_gpus : Z;
  arg_num_epochs_per_eval : Z;
  arg_num_epochs_per_param_save : Z;
}.

(** What exists around the object when it is built: the module-level state
    and the part of [self] that belongs to the subclass. *)
Record Ambient := {
  amb_device : Device;
  amb_learner : Learner;
  amb_ptu_device : Device;
  amb_logger : Logger;
  amb_gt : Timer;
}.

Definition is_online (mode : string) : bool := String.eqb mode "online".
Definition is_batch (mode : string) : bool := String.eqb mode "batch".

(** [RLAlgorithm.__init__]: the assertions, in the order they are met, and
    the attributes of the new object. *)
Definition __init__ (D : Deployment) (amb : Ambient) (a : Args)
  : result (Params * State) :=
  if negb (is_online (arg_collection_mode a) || is_batch (arg_collection_mode a))
  then Raise AssertionError
  else if is_batch (arg_collection_mode a)
          && negb (bool_decide (is_Some (arg_num_updates_per_epoch a)))
  then Raise AssertionError
  else
    let training_env := default (arg_env a) (arg_training_env a) in
    let num_updates_per_train_call :=
      if is_online (arg_collection_mode a)
      then arg_num_updates_per_env_step a
      else default 0 (arg_num_updates_per_epoch a) in
    let min_num_steps_before_training :=
      default (arg_num_steps_per_epoch a)
        (arg_min_num_steps_before_training a) in
    let '(eval_policy, eval_sampler) :=
      match arg_eval_sampler a, arg_eval_policy a with
      | None, None =>
          (EvalPolicyIsExploration,
           InPlacePathSampler (arg_env a) (arg_exploration_policy a)
             (arg_num_steps_per_eval a + arg_max_path_length a)
             (arg_max_path_length a))
      | None, Some p =>
          (EvalPolicyOwn p,
           InPlacePathSampler (arg_env a) p
             (arg_num_steps_per_eval a + arg_max_path_length a)
             (arg_max_path_length a))
      | Some sampler, None => (EvalPolicyNone, sampler)
      | Some sampler, Some p => (EvalPolicyOwn p, sampler)
      end in
    let replay_buffer :=
      match arg_replay_buffer a with
      | Some b => b
      | None => EnvReplayBuffer (arg_replay_buffer_size a) (arg_env a)
      end in
    match
      (match MPI D with
       | Some rank =>
           if mode_truthy (ptu_mode D)
           then match py_mod rank (arg_num_gpus a) with
                | Ok g => Ok (Some g)
                | Raise e => Raise e
                end
           else Ok None
       | None => Ok None
       end)
    with
    | Raise e => Raise e
    | Ok gpu_id =>
        match py_mod (arg_num_epochs_per_param_save a)
                (arg_num_epochs_per_eval a) with
        | Raise e => Raise e
        | Ok r =>
            if negb (r =? 0) then Raise AssertionError
            else
              Ok ({| num_epochs := arg_num_epochs a;
                     num_env_steps_per_epoch := arg_num_steps_per_epoch a;
                     num_steps_per_eval := arg_num_steps_per_eval a;
                     num_updates_per_train_call := num_updates_per_train_call;
                     batch_size := arg_batch_size a;
                     max_path_length := arg_max_path_length a;
                     discount := arg_discount a;
                     replay_buffer_size := arg_replay_buffer_size a;
                     reward_scale := arg_reward_scale a;
                     render := arg_render a;
                     collection_mode := arg_collection_mode a;
                     save_replay_buffer := arg_save_replay_buffer a;
                     save_algorithm := arg_save_algorithm a;
                     save_environment := arg_save_environment a;
                     min_num_steps_before_training :=
                       min_num_steps_before_training;
                     save_extra_data_interval := arg_save_extra_data_interval a;
                     gpu_id := gpu_id;
                     num_epochs_per_eval := arg_num_epochs_per_eval a;
                     num_epochs_per_param_save :=
                       arg_num_epochs_per_param_save a |},
                  {| training_env := training_env;
                     env := arg_env a;
                     exploration_policy := arg_exploration_policy a;
                     eval_policy := eval_policy;
                     eval_sampler := eval_sampler;
                     eval_statistics := [];
                     need_to_update_eval_statistics := true;
                     replay_buffer := replay_buffer;
                     _n_env_steps_total := 0;
                     _n_train_steps_total := 0;
                     _n_rollouts_total := 0;
                     _do_train_time := 0;
                     _epoch_start_time := None;
                     _old_table_keys := None;
                     _current_path_builder := PathBuilder_new;
                     _exploration_paths := [];
                     device := amb_device amb;
                     learner := amb_learner amb;
                     ptu_device := amb_ptu_device amb;
                     logger := amb_logger amb;
                     gt := amb_gt amb |})
        end
    end.

End Construction.

(** ** A concrete deployment

    A small, fully computable instance: observations are step indices, the
    environment reports [terminal] on the third step of every rollout, the
    replay buffer counts the samples it holds, the
    sampler returns one fixed trajectory and the logger keeps the keys of
    the row being assembled.  The subclass accepts the [mask] keyword of
    [_handle_step] and otherwise does what the base class does; its update
    clears the stale-statistics flag. *)
Module Demo.

#[export] Instance data : Data := {|
  Obs := Z;
  Action := Z;
  AgentInfo := unit;
  EnvInfo := unit;
  Mask := Z;
  Scalar := Z;
  scalar_of_Z := id;
  scalar_add := Z.add;
  scalar_sub := Z.sub;
  scalar_mul := Z.mul;
|}.

Record logger_state := {
  table : list (string * Cell);
  rows : list (list (string * Cell));
  log_lines : list LogLine;
}.

Definition one_path : Path :=
  {| observations := [0]; actions := [0]; rewards := [1];
     next_observations := [1]; terminals := [true];
     agent_infos := [tt]; env_infos := [tt] |}.

(** The timer appends a duration to the list of the stamp. *)
Definition stamp_itr (name : string) (t : list (string * list Z))
  : list (string * list Z) :=
  od_set name (default [] (od_get name t) ++ [1]) t.

#[export] Instance collaborators : Collaborators := {|
  Logger := logger_state;
  logger_push_prefix := λ _ l, l;
  logger_pop_prefix := λ l, l;
  logger_log := λ line l,
    {| table := table l; rows := rows l; log_lines := log_lines l ++ [line] |};
  logger_record_tabular := λ k v l,
    {| table := table l ++ [(k, v)]; rows := rows l; log_lines := log_lines l |};
  logger_get_table_key_set := λ l, list_to_set (fst <$> table l);
  logger_update_header := λ l, l;
  logger_dump_tabular := λ l,
    {| table := []; rows := rows l ++ [table l]; log_lines := log_lines l |};
  Env := Z;
  env_step := λ a e, ((e + 1, 1, (e + 1 =? 3), tt), e + 1);
  env_reset := λ _, (0, 0);
  env_render := λ e, e;
  env_render_close := λ e, e;
  env_num_blocks := λ _, Some 1;
  env_train := λ _, None;
  env_eval := λ _, None;
  env_log_diagnostics := λ _ _ _, None;
  env_get_diagnostics := λ _ _, None;
  Policy := unit;
  policy_reset := λ p, p;
  policy_set_num_steps_total := λ _ p, p;
  policy_get_action := λ ob p, ((ob, tt), p);
  ReplayBuffer := Z;
  EnvReplayBuffer := λ _ _, 0;
  rb_add_sample := λ _ b, b + 1;
  rb_terminate_episode := λ b, b;
  rb_num_steps_can_sample := λ b, b;
  rb_max_num_blocks := λ _, Some 1;
  Sampler := unit;
  InPlacePathSampler := λ _ _ _ _, tt;
  obtain_samples := λ sm, ([one_path], sm);
  get_generic_path_information := λ paths prefix _,
    [(prefix +:+ " Num Paths", Z.of_nat (length paths))];
  get_average_returns := λ _, 1;
  get_masks := λ a _ _, a;
  Timer := list (string * list Z);
  gt_reset := λ _, [];
  gt_set_def_unique := λ _ t, t;
  gt_stamp := stamp_itr;
  gt_itrs := λ t, t;
  gt_itrs_assign := λ k v t, od_set k v t;
  gt_total := λ _, 0;
  time_time := λ _, 0;
  str_title := λ k, k;
  Learner := unit;
|}.

(** The subclass: [_handle_step] takes the [mask] keyword and hands the
    rest to the definition of the base class. *)
Definition methods : Methods := {|
  training_mode := λ _ s, s;
  _do_training := λ s, (Ok tt, with_need_to_update_eval_statistics false s);
  _handle_step := λ ob a r nob t ai ei _,
    RLAlgorithm_handle_step ob a r nob t ai ei None;
  post_epoch_funcs := [];
|}.

(** The same subclass with an update that raises. *)
Definition failing_methods : Methods := {|
  training_mode := λ _ s, s;
  _do_training := λ s, (Raise (UpdateError 1), s);
  _handle_step := λ ob a r nob t ai ei _,
    RLAlgorithm_handle_step ob a r nob t ai ei None;
  post_epoch_funcs := [];
|}.

Definition ambient : Ambient := {|
  amb_device := cpu;
  amb_learner := tt;
  amb_ptu_device := cpu;
  amb_logger := {| table := []; rows := []; log_lines := [] |};
  amb_gt := [];
|}.

(** [RLAlgorithm(env, policy, num_epochs=epochs, num_steps_per_epoch=5,
    max_path_length=3, collection_mode=mode, num_updates_per_epoch=1)],
    every other keyword at its default. *)
Definition args (mode : string) (epochs : Z) : Args := {|
  arg_env := 0;
  arg_exploration_policy := tt;
  arg_training_env := None;
  arg_num_epochs := epochs;
  arg_num_steps_per_epoch := 5;
  arg_num_steps_per_eval := 1000;
  arg_num_updates_per_env_step := 1;
  arg_num_updates_per_epoch := Some 1;
  arg_batch_size := 1024;
  arg_max_path_length := 3;
  arg_discount := 1;
  arg_replay_buffer_size := 1000000;
  arg_reward_scale := 1;
  arg_min_num_steps_before_training := None;
  arg_render := false;
  arg_save_replay_buffer := false;
  arg_save_algorithm := false;
  arg_save_environment := true;
  arg_eval_sampler := None;
  arg_eval_policy := None;
  arg_replay_buffer := None;
  arg_collection_mode := mode;
  arg_save_extra_data_interval := 100000;
  arg_num_gpus := 1;
  arg_num_epochs_per_eval := 10;
  arg_num_epochs_per_param_save := 100;
|}.

(** A single process without mpi4py on the CPU, and rank 0 of an MPI run
    in [gpu_opt] mode. *)
Definition no_mpi : Deployment := {| MPI := None; ptu_mode := None |}.
Definition mpi_gpu_opt : Deployment :=
  {| MPI := Some 0; ptu_mode := Some "gpu_opt" |}.

Definition built (D : Deployment) (mode : string) (epochs : Z)
  : Params * State :=
  match __init__ D ambient (args mode epochs) with
  | Ok ps => ps
  | Raise _ =>
      ({| num_epochs := 0; num_env_steps_per_epoch := 0;
          num_steps_per_eval := 0; num_updates_per_train_call := 0;
          batch_size := 0; max_path_length := 0; discount := 0;
          replay_buffer_size := 0; reward_scale := 0; render := false;
          collection_mode := mode; save_replay_buffer := false;
          save_algorithm := false; save_environment := false;
          min_num_steps_before_training := 0;
          save_extra_data_interval := 0; gpu_id := None;
          num_epochs_per_eval := 0; num_epochs_per_param_save := 0 |},
       {| training_env := 0; env := 0; exploration_policy := tt;
          eval_policy := EvalPolicyNone; eval_sampler := tt;
          eval_statistics := []; need_to_update_eval_statistics := true;
          replay_buffer := 0; _n_env_steps_total := 0;
          _n_train_steps_total := 0; _n_rollouts_total := 0;
          _do_train_time := 0; _epoch_start_time := None;
          _old_table_keys := None; _current_path_builder := [];
          _exploration_paths := []; device := cpu; learner := tt;
          ptu_device := cpu;
          logger := {| table := []; rows := []; log_lines := [] |};
          gt := [] |})
  end.

End Demo.

(** ** Reasoning about outcomes *)

Section MonadLaws.
Context `{Collaborators}.

Definition prefix_events {A} (t : list Event) (o : Outcome A) : Outcome A :=
  {| res := res o; post := post o; events := t ++ events o |}.

Lemma prefix_events_nil {A} (o : Outcome A) : prefix_events [] o = o.
Proof. by destruct o. Qed.

Lemma prefix_events_app {A} (t t' : list Event) (o : Outcome A) :
  prefix_events t (prefix_events t' o) = prefix_events (t ++ t') o.
Proof. unfold prefix_events; cbn. by rewrite app_assoc. Qed.

Lemma bind_run {A B} (m : M A) (f : A → M B) (s : State) :
  (m ≫= f) s =
  match res (m s) with
  | Ok a => prefix_events (events (m s)) (f a (post (m s)))
  | Raise e => {| res := Raise e; post := post (m s); events := events (m s) |}
  end.
Proof. reflexivity. Qed.

Lemma bind_ret {A B} (a : A) (f : A → M B) (s : State) :
  (mret a ≫= f) s = f a s.
Proof. rewrite bind_run. cbn. apply prefix_events_nil. Qed.

Lemma bind_gets {A B} (g : State → A) (f : A → M B) (s : State) :
  (gets g ≫= f) s = f (g s) s.
Proof. rewrite bind_run. cbn. apply prefix_events_nil. Qed.

Lemma bind_modify {B} (g : State → State) (f : unit → M B) (s : State) :
  (modify g ≫= f) s = f tt (g s).
Proof. rewrite bind_run. cbn. apply prefix_events_nil. Qed.

Lemma bind_emit {B} (e : Event) (f : unit → M B) (s : State) :
  (emit e ≫= f) s = prefix_events [e] (f tt s).
Proof. reflexivity. Qed.

Lemma bind_raise {A B} (e : exn) (f : A → M B) (s : State) :
  (raise e ≫= f) s = raise e s.
Proof. reflexivity. Qed.

Lemma bind_call {A B} (h : Hook A) (f : A → M B) (s : State) :
  (call h ≫= f) s =
  match (h s).1 with
  | Ok a => f a (h s).2
  | Raise e => {| res := Raise e; post := (h s).2; events := [] |}
  end.
Proof.
  rewrite bind_run. cbn. destruct (h s).1; [apply prefix_events_nil | done].
Qed.

Lemma bind_assoc {A B C} (m : M A) (f : A → M B) (g : B → M C) (s : State) :
  ((m ≫= f) ≫= g) s = (m ≫= (λ x, f x ≫= g)) s.
Proof.
  rewrite !bind_run.
  destruct (res (m s)) as [a|e]; cbn; [|done].
  rewrite !bind_run. cbn.
  destruct (res (f a (post (m s)))) as [b|e]; cbn; [|done].
  unfold prefix_events; cbn. by rewrite app_assoc.
Qed.

Lemma bind_lift_result {A B} (r : result A) (f : A → M B) (s : State) :
  (lift_result r ≫= f) s =
  match r with
  | Ok a => f a s
  | Raise e => raise e s
  end.
Proof. destruct r; [apply bind_ret | done]. Qed.


(** Inverting a successful sequence. *)
Lemma bind_ok_inv {A B} (m : M A) (f : A → M B) (s : State) (b : B) :
  res ((m ≫= f) s) = Ok b →
  ∃ a, res (m s) = Ok a
       ∧ res (f a (post (m s))) = Ok b
       ∧ post ((m ≫= f) s) = post (f a (post (m s)))
       ∧ events ((m ≫= f) s) = events (m s) ++ events (f a (post (m s))).
Proof.
  rewrite bind_run. destruct (res (m s)) as [a|e]; cbn; [|done].
  intros Hb. by exists a.
Qed.

Lemma bind_events_prefix {A B} (m : M A) (f : A → M B) (s : State) :
  ∃ rest, events ((m ≫= f) s) = events (m s) ++ rest.
Proof.
  rewrite bind_run. destruct (res (m s)) as [a|e]; cbn.
  - by eexists.
  - exists []. by rewrite app_nil_r.
Qed.

(** *** Invariants and emitted events

    [sat I Q m]: started in a state that satisfies [I], the method [m]
    leaves a state that satisfies [I] (whether it returns or raises) and
    every call it makes satisfies [Q]. *)
Definition sat {A} (I : State → Prop) (Q : Event → Prop) (m : M A) : Prop :=
  ∀ s, I s → I (post (m s)) ∧ Forall Q (events (m s)).

Lemma sat_weaken {A} (I : State → Prop) (Q Q' : Event → Prop) (m : M A) :
  (∀ e, Q e → Q' e) → sat I Q m → sat I Q' m.
Proof.
  intros HQ Hm s Hs. destruct (Hm s Hs) as [Hp He]. split; [done|].
  eapply Forall_impl; [exact He | exact HQ].
Qed.

Section Sat.
Variable I : State → Prop.
Variable Q : Event → Prop.

Lemma sat_ret {A} (a : A) : sat I Q (mret a).
Proof. intros s Hs. cbn. by split. Qed.

Lemma sat_gets {A} (g : State → A) : sat I Q (gets g).
Proof. intros s Hs. cbn. by split. Qed.

Lemma sat_raise {A} (e : exn) : sat I Q (raise e : M A).
Proof. intros s Hs. cbn. by split. Qed.

Lemma sat_modify (g : State → State) :
  (∀ s, I s → I (g s)) → sat I Q (modify g).
Proof. intros Hg s Hs. cbn. split; [by apply Hg | done]. Qed.

Lemma sat_emit (e : Event) : Q e → sat I Q (emit e).
Proof. intros He s Hs. cbn. split; [done | by constructor]. Qed.

Lemma sat_call {A} (h : Hook A) :
  (∀ s, I s → I (h s).2) → sat I Q (call h).
Proof. intros Hh s Hs. cbn. split; [by apply Hh | done]. Qed.

Lemma sat_lift_result {A} (r : result A) : sat I Q (lift_result r).
Proof. destruct r; [apply sat_ret | apply sat_raise]. Qed.

Lemma sat_bind {A B} (m : M A) (f : A → M B) :
  sat I Q m → (∀ a, sat I Q (f a)) → sat I Q (m ≫= f).
Proof.
  intros Hm Hf s Hs. destruct (Hm s Hs) as [Hp He].
  rewrite bind_run. destruct (res (m s)) as [a|e]; cbn; [|done].
  destruct (Hf a _ Hp) as [Hp' He']. split; [done|].
  by apply Forall_app.
Qed.

Lemma sat_when (b : bool) (m : M unit) : sat I Q m → sat I Q (when b m).
Proof. destruct b; [done | intros _; apply sat_ret]. Qed.

Lemma sat_for_range (n : nat) (body : M unit) :
  sat I Q body → sat I Q (for_range n body).
Proof.
  intros Hb. induction n as [|n IH]; cbn [for_range].
  - apply sat_ret.
  - apply sat_bind; [done | by intros _].
Qed.

Lemma sat_for_each {A} (xs : list A) (body : A → M unit) :
  (∀ x, sat I Q (body x)) → sat I Q (for_each xs body).
Proof.
  intros Hb. induction xs as [|x xs IH]; cbn [for_each].
  - apply sat_ret.
  - apply sat_bind; [done | by intros _].
Qed.

End Sat.

(** *** Postconditions on return

    [ensures m R]: whenever [m] returns, the state it leaves satisfies [R].
    In a sequence only the last method matters. *)
Definition ensures {A} (m : M A) (R : State → Prop) : Prop :=
  ∀ s a, res (m s) = Ok a → R (post (m s)).

Lemma ensures_bind {A B} (m : M A) (f : A → M B) (R : State → Prop) :
  (∀ a, ensures (f a) R) → ensures (m ≫= f) R.
Proof.
  intros Hf s b Hb. apply bind_ok_inv in Hb as (a & _ & Hb & -> & _).
  by eapply Hf.
Qed.

Lemma ensures_modify (g : State → State) (R : State → Prop) :
  (∀ s, R (g s)) → ensures (modify g) R.
Proof. intros Hg s a _. apply Hg. Qed.

(** [total m]: [m] raises in no state. *)
Definition total {A} (m : M A) : Prop := ∀ s, ∃ a, res (m s) = Ok a.

Lemma total_ret {A} (a : A) : total (mret a).
Proof. intros s. by exists a. Qed.

Lemma total_gets {A} (g : State → A) : total (gets g).
Proof. intros s. by eexists. Qed.

Lemma total_modify (g : State → State) : total (modify g).
Proof. intros s. by exists tt. Qed.

Lemma total_emit (e : Event) : total (emit e).
Proof. intros s. by exists tt. Qed.

Lemma total_bind {A B} (m : M A) (f : A → M B) :
  total m → (∀ a, total (f a)) → total (m ≫= f).
Proof.
  intros Hm Hf s. destruct (Hm s) as [a Ha].
  destruct (Hf a (post (m s))) as [b Hb].
  exists b. rewrite bind_run, Ha. done.
Qed.

Lemma total_for_each {A} (xs : list A) (body : A → M unit) :
  (∀ x, total (body x)) → total (for_each xs body).
Proof.
  intros Hb. induction xs as [|x xs IH]; cbn [for_each].
  - apply total_ret.
  - apply total_bind; [done | by intros _].
Qed.

End MonadLaws.

(** One step of symbolic execution of a method applied to a state. *)
Ltac mstep :=
  first
    [ rewrite bind_assoc
    | rewrite bind_ret
    | rewrite bind_gets
    | rewrite bind_modify
    | rewrite bind_emit
    | rewrite bind_raise
    | rewrite bind_call
    | rewrite bind_lift_result
    | rewrite prefix_events_app ];
  cbv beta iota; cbn [fst snd].

Ltac msimp :=
  cbv beta iota; cbn [fst snd];
  repeat mstep;
  cbn [res post events prefix_events mret M_ret gets modify emit raise app].

(** Decompose a [sat] goal along the structure of the method. *)
Ltac sat_step :=
  lazymatch goal with
  | |- sat _ _ (mret _) => apply sat_ret
  | |- sat _ _ (gets _) => apply sat_gets
  | |- sat _ _ (raise _) => apply sat_raise
  | |- sat _ _ (modify _) => apply sat_modify
  | |- sat _ _ (emit _) => apply sat_emit
  | |- sat _ _ (call _) => apply sat_call
  | |- sat _ _ (lift_result _) => apply sat_lift_result
  | |- sat _ _ (_ ≫= _) => apply sat_bind; [| intros ?]
  | |- sat _ _ (when false _) => apply sat_ret
  | |- sat _ _ (when _ _) => apply sat_when
  | |- sat _ _ (for_range _ _) => apply sat_for_range
  | |- sat _ _ (for_each _ _) => apply sat_for_each; intros ?
  | |- sat _ _ (if ?b then _ else _) => destruct b
  | |- sat _ _ (match ?x with _ => _ end) => destruct x
  end.

Ltac total_step :=
  lazymatch goal with
  | |- total (mret _) => apply total_ret
  | |- total (gets _) => apply total_gets
  | |- total (modify _) => apply total_modify
  | |- total (emit _) => apply total_emit
  | |- total (_ ≫= _) => apply total_bind; [| intros ?]
  | |- total (for_each _ _) => apply total_for_each; intros ?
  | |- total (if ?b then _ else _) => destruct b
  | |- total (match ?x with _ => _ end) => destruct x
  end.

(** Normalise projections of updated states. *)
Ltac st_simpl :=
  cbn [training_env env exploration_policy eval_policy eval_sampler
       eval_statistics need_to_update_eval_statistics replay_buffer
       _n_env_steps_total _n_train_steps_total _n_rollouts_total
       _do_train_time _epoch_start_time _old_table_keys
       _current_path_builder _exploration_paths device learner ptu_device
       logger gt
       with_training_env with_env with_exploration_policy with_eval_sampler
       with_need_to_update_eval_statistics with_replay_buffer
       with_n_env_steps_total with_n_train_steps_total with_n_rollouts_total
       with_do_train_time with_epoch_start_time with_old_table_keys
       with_current_path_builder with_exploration_paths with_device
       with_ptu_device with_logger with_gt fst snd] in *.

(** ** Properties *)

Section Properties.
Context `{Collaborators}.
Variable D : Deployment.
Variable P : Params.
Variable Mt : Methods.

Definition is_update (e : Event) : bool :=
  match e with EvDoTraining => true | _ => false end.

(** *** The end of a rollout *)

(** The state [_handle_rollout_ending] leaves behind. *)
Definition ended (s : State) : State :=
  let s' := with_n_rollouts_total (_n_rollouts_total s + 1)
              (with_replay_buffer (rb_terminate_episode (replay_buffer s)) s) in
  if 0 <? pb_len (_current_path_builder s) then
    with_current_path_builder PathBuilder_new
      (with_exploration_paths
         (_exploration_paths s ++ [get_all_stacked (_current_path_builder s)])
         s')
  else s'.

Lemma ended_training_env (s : State) :
  training_env (ended s) = training_env s.
Proof. unfold ended. by destruct (0 <? _). Qed.

Lemma ended_exploration_policy (s : State) :
  exploration_policy (ended s) = exploration_policy s.
Proof. unfold ended. by destruct (0 <? _). Qed.

Lemma ended_replay_buffer (s : State) :
  replay_buffer (ended s) = rb_terminate_episode (replay_buffer s).
Proof. unfold ended. by destruct (0 <? _). Qed.

Lemma ended_n_rollouts_total (s : State) :
  _n_rollouts_total (ended s) = _n_rollouts_total s + 1.
Proof. unfold ended. by destruct (0 <? _). Qed.

Lemma handle_rollout_ending_run (s : State) :
  _handle_rollout_ending s =
  {| res := Ok tt; post := ended s; events := [EvTerminateEpisode] |}.
Proof.
  unfold _handle_rollout_ending, ended. msimp. st_simpl.
  unfold prefix_events.
  by destruct (0 <? pb_len (_current_path_builder s)); msimp.
Qed.

(** C4: every call of [_handle_rollout_ending] adds exactly one to
    [_n_rollouts_total] and notifies the replay buffer of the episode
    boundary; a trajectory is appended to the exploration paths, and the
    path builder replaced by an empty one, exactly when the builder holds
    at least one transition. *)
Theorem handle_rollout_ending_spec (s : State) :
  let o := _handle_rollout_ending s in
  let pb := _current_path_builder s in
  res o = Ok tt
  ∧ _n_rollouts_total (post o) = _n_rollouts_total s + 1
  ∧ replay_buffer (post o) = rb_terminate_episode (replay_buffer s)
  ∧ events o = [EvTerminateEpisode]
  ∧ _exploration_paths (post o) =
      (if 0 <? pb_len pb
       then _exploration_paths s ++ [get_all_stacked pb]
       else _exploration_paths s)
  ∧ _current_path_builder (post o) =
      (if 0 <? pb_len pb then PathBuilder_new else pb)
  ∧ (length (_exploration_paths (post o)) = S (length (_exploration_paths s))
     ↔ pb ≠ []).
Proof.
  cbv zeta. rewrite handle_rollout_ending_run. cbn [res post events].
  unfold ended, pb_len.
  destruct (_current_path_builder s) as [|t pb] eqn:Hpb; simpl.
  - do 6 (split; [done|]). split; [intros Hl; exfalso; lia | done].
  - do 6 (split; [done|]). split; [done|].
    intros _. rewrite length_app. cbn. lia.
Qed.

Lemma update_loop_events (n : nat) (s : State) :
  let o := for_range n
             (emit EvDoTraining ;;
              call (_do_training Mt) ;;
              modify (λ s, with_n_train_steps_total
                             (_n_train_steps_total s + 1) s)) s in
  Forall (λ e, e = EvDoTraining) (events o)
  ∧ (res o = Ok tt → length (events o) = n)
  ∧ ((0 < n)%nat → EvDoTraining ∈ events o).
Proof.
  revert s. induction n as [|n IH]; intros s; cbn [for_range].
  - cbn. repeat split; [constructor | lia].
  - msimp.
    destruct (_do_training Mt s) as [[[]|e] s1]; cbn [fst snd res post events].
    + destruct (IH (with_n_train_steps_total (_n_train_steps_total s1 + 1) s1))
        as (IH1 & IH2 & IH3).
      repeat split.
      * constructor; [done | exact IH1].
      * intros E. cbn. f_equal. by apply IH2.
      * intros _. left.
    + repeat split.
      * constructor; [done | constructor].
      * discriminate.
      * intros _. left.
Qed.

(** *** The training phase, run symbolically *)

Definition gpu_opt : bool := mode_is (ptu_mode D) "gpu_opt".

Definition acquired (s : State) : State :=
  match gpu_opt, gpu_id P with
  | true, Some g => with_device (cuda g) (with_ptu_device (cuda g) s)
  | _, _ => s
  end.

Definition acquire_events : list Event :=
  match gpu_opt, gpu_id P with
  | true, Some g => [EvSetDevice (cuda g); EvTo (cuda g)]
  | _, _ => []
  end.

Definition released (s : State) : State :=
  if gpu_opt then with_device cpu (with_ptu_device cpu s) else s.

Definition release_events : list Event :=
  if gpu_opt then [EvSetDevice cpu; EvTo cpu] else [].

Definition update_loop : M unit :=
  for_range (Z.to_nat (num_updates_per_train_call P))
    (emit EvDoTraining ;;
     call (_do_training Mt) ;;
     modify (λ s, with_n_train_steps_total (_n_train_steps_total s + 1) s)).

Lemma try_to_train_run (s : State) :
  (gpu_opt = true → is_Some (gpu_id P)) →
  _try_to_train D P Mt s =
  if _can_train P s then
    let ol := update_loop (training_mode Mt true (acquired s)) in
    match res ol with
    | Ok _ =>
        {| res := Ok tt;
           post := released (training_mode Mt false (post ol));
           events := EvTryToTrain :: acquire_events
                     ++ EvTrainingMode true :: events ol
                     ++ EvTrainingMode false :: release_events |}
    | Raise e =>
        {| res := Raise e;
           post := post ol;
           events := EvTryToTrain :: acquire_events
                     ++ EvTrainingMode true :: events ol |}
    end
  else
    {| res := Ok tt;
       post := released (acquired s);
       events := EvTryToTrain :: acquire_events ++ release_events |}.
Proof.
  intros Hgpu.
  unfold _try_to_train, _can_train, acquired, acquire_events, released,
    release_events, update_loop, gpu_opt in *.
  destruct (mode_is (ptu_mode D) "gpu_opt") eqn:Hm.
  - destruct Hgpu as [g Hg]; [done|]. rewrite Hg.
    unfold when, ptu_set_device, to. msimp.
    cbn [replay_buffer with_device with_ptu_device].
    destruct (min_num_steps_before_training P <=? _) eqn:E; msimp.
    + rewrite bind_run.
      destruct (res (for_range _ _ _)) as [[]|e]; [|done].
      msimp. unfold prefix_events, modify. cbn.
      by rewrite <- !app_assoc.
    + done.
  - unfold when. msimp.
    destruct (min_num_steps_before_training P <=? _) eqn:E; msimp.
    + rewrite bind_run.
      destruct (res (for_range _ _ _)) as [[]|e]; [|done].
      msimp. unfold prefix_events, modify. cbn.
      by rewrite <- !app_assoc.
    + done.
Qed.


Lemma training_mode_not_in_loop (l : list Event) (b : bool) :
  Forall (λ e, e = EvDoTraining) l → EvTrainingMode b ∉ l.
Proof.
  intros HF Hin. rewrite Forall_forall in HF.
  by specialize (HF _ Hin).
Qed.


(** *** Persistence is gated on MPI *)

Definition is_save (e : Event) : bool :=
  match e with
  | EvSaveExtraData _ | EvSaveItrParams _ _ => true
  | _ => false
  end.

Section NoMPI.
Hypothesis no_mpi : MPI D = None.
Let Q (e : Event) : Prop := is_save e = false.
Let I (s : State) : Prop := True.

Lemma is_rank0_no_mpi : is_rank0 D = false.
Proof. unfold is_rank0. by rewrite no_mpi. Qed.

Lemma silent_take_step_in_env (observation : Obs) :
  sat I Q (_take_step_in_env P Mt observation).
Proof.
  unfold _take_step_in_env, take_step_record, _get_action_and_info,
    _handle_rollout_ending, _start_new_rollout.
  repeat sat_step; done.
Qed.

Lemma silent_try_to_train : sat I Q (_try_to_train D P Mt).
Proof.
  unfold _try_to_train, ptu_set_device, to.
  repeat sat_step; done.
Qed.

Lemma silent_try_to_eval (epoch : Z) (eval_paths : option (list Path)) :
  sat I Q (_try_to_eval D P epoch eval_paths).
Proof.
  unfold _try_to_eval, save_checkpoints. rewrite is_rank0_no_mpi.
  unfold evaluate, record_counters_and_times, check_table_keys_and_dump,
    get_eval_paths, record_tabular.
  repeat sat_step; done.
Qed.

Lemma silent_online_steps (n : nat) (observation : Obs) :
  sat I Q (online_steps D P Mt n observation).
Proof.
  revert observation. induction n as [|n IH]; intros observation;
    cbn [online_steps].
  - apply sat_ret.
  - pose proof silent_take_step_in_env. pose proof silent_try_to_train.
    unfold stamp. repeat sat_step; done.
Qed.

Lemma silent_batch_steps (n : nat) (observation : Obs) :
  sat I Q (batch_steps P Mt n observation).
Proof.
  revert observation. induction n as [|n IH]; intros observation;
    cbn [batch_steps].
  - apply sat_ret.
  - pose proof silent_take_step_in_env. repeat sat_step; done.
Qed.

Lemma silent_train (start_epoch : Z) : sat I Q (train D P Mt start_epoch).
Proof.
  pose proof silent_online_steps. pose proof silent_batch_steps.
  pose proof silent_try_to_train. pose proof silent_try_to_eval.
  unfold train. rewrite is_rank0_no_mpi, andb_false_r.
  unfold pretrain, train_online, train_batch, online_epoch, batch_epoch,
    _start_epoch, _end_epoch, _start_new_rollout, stamp.
  repeat sat_step; done.
Qed.

(** C10: when mpi4py could not be imported ([MPI] is [None]) no call to
    [logger.save_extra_data] or [logger.save_itr_params] is ever made:
    none by [_try_to_eval], whatever the epoch and the configuration, and
    none by a whole run of [train], the snapshot of epoch -1 included. *)
Theorem no_persistence_without_mpi :
  (∀ epoch eval_paths s,
     Forall (λ e, is_save e = false)
       (events (_try_to_eval D P epoch eval_paths s)))
  ∧ (∀ start_epoch s,
       Forall (λ e, is_save e = false)
         (events (train D P Mt start_epoch s))).
Proof.
  split.
  - intros epoch eval_paths s.
    by apply (silent_try_to_eval epoch eval_paths s).
  - intros start_epoch s. by apply (silent_train start_epoch s).
Qed.

End NoMPI.

(** *** The schedule of steps and training phases *)

Inductive Phase :=
| StepPhase
| TrainPhase.

Definition phase_of (e : Event) : option Phase :=
  match e with
  | EvEnvStep _ => Some StepPhase
  | EvTryToTrain => Some TrainPhase
  | _ => None
  end.

Fixpoint schedule (evs : list Event) : list Phase :=
  match evs with
  | [] => []
  | e :: evs' =>
      match phase_of e with
      | Some ph => ph :: schedule evs'
      | None => schedule evs'
      end
  end.

Lemma schedule_app (l1 l2 : list Event) :
  schedule (l1 ++ l2) = schedule l1 ++ schedule l2.
Proof.
  induction l1 as [|e l1 IH]; [done|]. cbn.
  destruct (phase_of e); cbn; by rewrite IH.
Qed.

Lemma schedule_none (l : list Event) :
  Forall (λ e, phase_of e = None) l → schedule l = [].
Proof. induction 1 as [|e l He _ IH]; [done|]. cbn. by rewrite He. Qed.

Definition no_phase (e : Event) : Prop := phase_of e = None.

Lemma schedule_sat {A} (m : M A) (s : State) :
  sat (λ _, True) no_phase m → schedule (events (m s)) = [].
Proof. intros Hm. apply schedule_none. by apply (Hm s). Qed.

(** *** An environment step, run symbolically *)

(** What the exploration policy answers, the environment that is stepped,
    what it answers, and the state in which [_handle_step] is called. *)
Definition step_policy (observation : Obs) (s : State)
  : (Action * AgentInfo) * Policy :=
  policy_get_action observation
    (policy_set_num_steps_total (_n_env_steps_total s) (exploration_policy s)).

Definition step_answer (observation : Obs) (s : State)
  : (Obs * Scalar * bool * EnvInfo) * Env :=
  env_step (step_policy observation s).1.1
    (if render P then env_render (training_env s) else training_env s).

Definition stepped (observation : Obs) (s : State) : State :=
  with_n_env_steps_total (_n_env_steps_total s + 1)
    (with_training_env (step_answer observation s).2
       (with_exploration_policy (step_policy observation s).2 s)).

Definition step_mask (s1 : State) : result Mask :=
  match env_num_blocks (training_env s1) with
  | None => Raise (AttributeError "num_blocks")
  | Some nb =>
      match rb_max_num_blocks (replay_buffer s1) with
      | None => Raise (AttributeError "max_num_blocks")
      | Some mb => Ok (get_masks nb mb 1)
      end
  end.

Lemma take_step_record_run (observation : Obs) (s : State) :
  take_step_record P Mt observation s =
  let action := (step_policy observation s).1.1 in
  let agent_info := (step_policy observation s).1.2 in
  let next_ob := (step_answer observation s).1.1.1.1 in
  let raw_reward := (step_answer observation s).1.1.1.2 in
  let terminal := (step_answer observation s).1.1.2 in
  let env_info := (step_answer observation s).1.2 in
  let s1 := stepped observation s in
  match step_mask s1 with
  | Raise e => {| res := Raise e; post := s1; events := [EvEnvStep action] |}
  | Ok mask =>
      let h := _handle_step Mt observation action
                 (scalar_mul raw_reward (reward_scale P)) next_ob terminal
                 agent_info env_info (Some mask) s1 in
      {| res := match h.1 with
                | Ok _ => Ok (next_ob, terminal)
                | Raise e => Raise e
                end;
         post := h.2;
         events := [EvEnvStep action] |}
  end.
Proof.
  unfold take_step_record, _get_action_and_info, step_mask, stepped,
    step_answer, step_policy.
  msimp. st_simpl.
  destruct (policy_get_action _ _) as [[action agent_info] pol].
  unfold when. destruct (render P); msimp; st_simpl.
  all: match goal with
       | |- context [env_step ?a ?x] =>
           destruct (env_step a x)
             as [[[[next_ob raw_reward] terminal] env_info] e']
       end.
  all: msimp; st_simpl.
  all: destruct (env_num_blocks e') as [nb|]; msimp; st_simpl;
         [|unfold prefix_events; by cbn].
  all: destruct (rb_max_num_blocks (replay_buffer s)) as [mb|]; msimp;
         [|unfold prefix_events; by cbn].
  all: unfold prefix_events; cbn.
  all: by destruct (_handle_step _ _ _ _ _ _ _ _ _ _) as [[[]|e] s2].
Qed.

Lemma take_step_record_events (observation : Obs) (s : State) :
  events (take_step_record P Mt observation s)
  = [EvEnvStep (step_policy observation s).1.1].
Proof.
  rewrite take_step_record_run. cbv zeta.
  by destruct (step_mask _).
Qed.

Definition rollout_ends (terminal : bool) (s1 : State) : bool :=
  terminal || (max_path_length P <=? pb_len (_current_path_builder s1)).

(** The state after [_handle_rollout_ending] and [_start_new_rollout]. *)
Definition restarted (s1 : State) : State :=
  with_training_env (env_reset (training_env s1)).2
    (with_exploration_policy (policy_reset (exploration_policy s1))
       (ended s1)).

Lemma take_step_in_env_run (observation : Obs) (s : State) :
  _take_step_in_env P Mt observation s =
  let o1 := take_step_record P Mt observation s in
  match res o1 with
  | Raise e => {| res := Raise e; post := post o1; events := events o1 |}
  | Ok (next_ob, terminal) =>
      if rollout_ends terminal (post o1) then
        {| res := Ok (env_reset (training_env (post o1))).1;
           post := restarted (post o1);
           events := events o1 ++ [EvTerminateEpisode; EvEnvReset] |}
      else
        {| res := Ok next_ob; post := post o1; events := events o1 |}
  end.
Proof.
  unfold _take_step_in_env. rewrite bind_run. cbv zeta.
  destruct (res (take_step_record P Mt observation s))
    as [[next_ob terminal]|e]; [|done].
  msimp. unfold rollout_ends, restarted.
  destruct (terminal || _).
  - unfold _start_new_rollout. rewrite bind_run, handle_rollout_ending_run.
    msimp. st_simpl. unfold prefix_events. cbn.
    by rewrite ended_training_env, ended_exploration_policy.
  - msimp. unfold prefix_events. cbn. by rewrite app_nil_r.
Qed.

(** C3: a step ends the rollout if and only if the environment reported
    [terminal] or the path builder, with this step recorded, has reached
    [max_path_length]; the observation returned for the next step is then
    the one [training_env.reset()] produces, and otherwise the step's
    [next_ob]. *)
Theorem take_step_rollout_boundary
    (observation : Obs) (s : State) (next_ob : Obs) (terminal : bool) :
  res (take_step_record P Mt observation s) = Ok (next_ob, terminal) →
  let s1 := post (take_step_record P Mt observation s) in
  let o := _take_step_in_env P Mt observation s in
  let n := pb_len (_current_path_builder s1) in
  let step := EvEnvStep (step_policy observation s).1.1 in
  ((step_answer observation s).1.1.1.1 = next_ob
   ∧ (step_answer observation s).1.1.2 = terminal)
  ∧ (EvTerminateEpisode ∈ events o ↔ terminal = true ∨ max_path_length P ≤ n)
  ∧ (terminal = true ∨ max_path_length P ≤ n →
       res o = Ok (env_reset (training_env s1)).1
       ∧ training_env (post o) = (env_reset (training_env s1)).2
       ∧ events o = [step; EvTerminateEpisode; EvEnvReset]
       ∧ _n_rollouts_total (post o) = _n_rollouts_total s1 + 1)
  ∧ (¬ (terminal = true ∨ max_path_length P ≤ n) →
       res o = Ok next_ob ∧ post o = s1 ∧ events o = [step]).
Proof.
  intros Hrec s1 o n step. subst o.
  rewrite take_step_in_env_run. cbv zeta.
  rewrite take_step_record_events. fold s1. rewrite Hrec.
  assert (Hends : rollout_ends terminal s1 = true
                  ↔ terminal = true ∨ max_path_length P ≤ n).
  { unfold rollout_ends. rewrite orb_true_iff, Z.leb_le. done. }
  split.
  { revert Hrec. rewrite take_step_record_run. cbv zeta.
    destruct (step_mask _); [|done]. cbn.
    destruct (_handle_step _ _ _ _ _ _ _ _ _ _).1; [|done].
    intros [= <- <-]. done. }
  destruct (rollout_ends terminal s1) eqn:E; cbn [res post events app].
  - split; [split; [intros _; by apply Hends | intros _; set_solver]|].
    split; [|intros Hn; exfalso; apply Hn; by apply Hends].
    intros _. split; [done|]. split; [done|]. split; [done|].
    unfold restarted. st_simpl. apply ended_n_rollouts_total.
  - assert (Hn : ¬ (terminal = true ∨ max_path_length P ≤ n)).
    { intros Hc. apply Hends in Hc. congruence. }
    split; [split; [intros Hin; set_solver | done]|].
    split; [done|]. done.
Qed.

Lemma schedule_take_step_in_env (observation : Obs) (s : State) :
  schedule (events (_take_step_in_env P Mt observation s)) = [StepPhase].
Proof.
  rewrite take_step_in_env_run. cbv zeta.
  rewrite take_step_record_events.
  destruct (res _) as [[next_ob terminal]|e]; [|done].
  by destruct (rollout_ends _ _).
Qed.

Lemma schedule_update_loop (s : State) :
  schedule (events (update_loop s)) = [].
Proof.
  apply schedule_none.
  destruct (update_loop_events (Z.to_nat (num_updates_per_train_call P)) s)
    as (HF & _).
  eapply Forall_impl; [exact HF|]. by intros e ->.
Qed.

Lemma schedule_try_to_train (s : State) :
  schedule (events (_try_to_train D P Mt s)) = [TrainPhase].
Proof.
  destruct gpu_opt eqn:Hm, (gpu_id P) as [g|] eqn:Hg.
  2: { unfold _try_to_train. fold gpu_opt. rewrite Hm, Hg.
       unfold when. by msimp. }
  all: rewrite try_to_train_run by (rewrite ?Hm, ?Hg; done).
  all: unfold acquire_events, release_events; rewrite Hm, ?Hg.
  all: destruct (_can_train P s); cbv zeta; [|done].
  all: destruct (res (update_loop _)); cbn [events app schedule phase_of].
  all: rewrite ?schedule_app, schedule_update_loop.
  all: done.
Qed.

Lemma schedule_cons_none (e : Event) (l : list Event) :
  phase_of e = None → schedule (e :: l) = schedule l.
Proof. intros He. cbn. by rewrite He. Qed.

Lemma no_phase_try_to_eval (epoch : Z) (eval_paths : option (list Path)) :
  sat (λ _, True) no_phase (_try_to_eval D P epoch eval_paths).
Proof.
  unfold _try_to_eval, save_checkpoints, get_extra_data_to_save, evaluate,
    record_counters_and_times, check_table_keys_and_dump, get_eval_paths,
    record_tabular.
  repeat sat_step; done.
Qed.

Lemma no_phase_start_epoch (epoch : Z) :
  sat (λ _, True) no_phase (_start_epoch epoch).
Proof. unfold _start_epoch. repeat sat_step; done. Qed.

Lemma no_phase_end_epoch (epoch : Z) :
  sat (λ _, True) no_phase (_end_epoch P Mt epoch).
Proof. unfold _end_epoch. repeat sat_step; done. Qed.

Lemma no_phase_start_new_rollout :
  sat (λ _, True) no_phase _start_new_rollout.
Proof. unfold _start_new_rollout. repeat sat_step; done. Qed.

(** Invert [res ((m ≫= f) s) = Ok b] and split the events accordingly. *)
Ltac ok_inv H :=
  let a := fresh "a" in
  let Hm := fresh "Hm" in
  let Hp := fresh "Hp" in
  let He := fresh "He" in
  apply bind_ok_inv in H as (a & Hm & H & Hp & He);
  rewrite He; clear He Hp; cbv beta in H |- *.

Definition online_pattern (n : nat) : list Phase :=
  concat (replicate n [StepPhase; TrainPhase]).

Definition batch_pattern (n : nat) : list Phase :=
  replicate n StepPhase ++ [TrainPhase].

Lemma schedule_online_steps (n : nat) (observation : Obs) (s : State) :
  res (online_steps D P Mt n observation s) = Ok tt →
  schedule (events (online_steps D P Mt n observation s)) = online_pattern n.
Proof.
  revert observation s. induction n as [|n IH]; intros observation s;
    cbn [online_steps].
  - done.
  - intros Hok. do 4 ok_inv Hok.
    rewrite !schedule_app, schedule_take_step_in_env, schedule_try_to_train.
    rewrite (IH _ _ Hok). done.
Qed.

Lemma schedule_batch_steps (n : nat) (observation : Obs) (s : State) :
  res (batch_steps P Mt n observation s) = Ok tt →
  schedule (events (batch_steps P Mt n observation s)) = replicate n StepPhase.
Proof.
  revert observation s. induction n as [|n IH]; intros observation s;
    cbn [batch_steps].
  - done.
  - intros Hok. ok_inv Hok.
    rewrite !schedule_app, schedule_take_step_in_env.
    rewrite (IH _ _ Hok). done.
Qed.

(** Erase from a schedule the events of the methods that make no step
    and no training phase. *)
Ltac schedule_silent :=
  repeat match goal with
  | |- context [schedule (events (?m ?s))] =>
      rewrite (schedule_sat m s)
        by first [ apply no_phase_start_epoch
                 | apply no_phase_end_epoch
                 | apply no_phase_start_new_rollout
                 | apply no_phase_try_to_eval
                 | pose proof no_phase_try_to_eval;
                   unfold pretrain, stamp; repeat sat_step; done ]
  end.

Lemma schedule_online_epoch (epoch : Z) (s : State) :
  res (online_epoch D P Mt epoch s) = Ok tt →
  schedule (events (online_epoch D P Mt epoch s))
  = online_pattern (Z.to_nat (num_env_steps_per_epoch P)).
Proof.
  unfold online_epoch. intros Hok. do 7 ok_inv Hok.
  rewrite !schedule_app. schedule_silent.
  repeat match goal with a : unit |- _ => destruct a end.
  match goal with
  | Hs : res (online_steps _ _ _ _ _ _) = Ok _ |- _ =>
      rewrite (schedule_online_steps _ _ _ Hs)
  end.
  cbn. by rewrite app_nil_r.
Qed.

Lemma schedule_batch_epoch (epoch : Z) (s : State) :
  res (batch_epoch D P Mt epoch s) = Ok tt →
  schedule (events (batch_epoch D P Mt epoch s))
  = batch_pattern (Z.to_nat (num_env_steps_per_epoch P)).
Proof.
  unfold batch_epoch. intros Hok. do 10 ok_inv Hok.
  rewrite !schedule_app. schedule_silent.
  rewrite schedule_try_to_train.
  repeat match goal with a : unit |- _ => destruct a end.
  match goal with
  | Hs : res (batch_steps _ _ _ _ _) = Ok _ |- _ =>
      rewrite (schedule_batch_steps _ _ _ Hs)
  end.
  cbn. by rewrite ?app_nil_r.
Qed.

Lemma schedule_for_each (body : Z → M unit) (pattern : list Phase) :
  (∀ e s, res (body e s) = Ok tt → schedule (events (body e s)) = pattern) →
  ∀ es s, res (for_each es body s) = Ok tt →
          schedule (events (for_each es body s))
          = concat (replicate (length es) pattern).
Proof.
  intros Hbody es. induction es as [|e es IH]; intros s; cbn [for_each].
  - done.
  - intros Hok. ok_inv Hok. destruct a.
    rewrite schedule_app, (Hbody _ _ Hm), (IH _ Hok). done.
Qed.

(** C5: in a run that completes, the steps and training phases of every
    epoch follow one pattern.  In online mode a training phase follows each
    of the [num_env_steps_per_epoch] steps at once; in batch mode all the
    steps of the epoch come first and one training phase follows them. *)
Theorem training_schedule (start_epoch : Z) (s : State) :
  let n := Z.to_nat (num_env_steps_per_epoch P) in
  let epochs := length (epoch_range P start_epoch) in
  res (train D P Mt start_epoch s) = Ok tt →
  (collection_mode P = "online" →
     schedule (events (train D P Mt start_epoch s))
     = concat (replicate epochs (online_pattern n)))
  ∧ (collection_mode P = "batch" →
       schedule (events (train D P Mt start_epoch s))
       = concat (replicate epochs (batch_pattern n)))
  ∧ (∀ epoch s', res (online_epoch D P Mt epoch s') = Ok tt →
       schedule (events (online_epoch D P Mt epoch s')) = online_pattern n)
  ∧ (∀ epoch s', res (batch_epoch D P Mt epoch s') = Ok tt →
       schedule (events (batch_epoch D P Mt epoch s')) = batch_pattern n).
Proof.
  intros n epochs Hok. split; [|split; [|split]].
  - intros Hmode. revert Hok. unfold train, train_online. rewrite Hmode.
    rewrite String.eqb_refl. intros Hok. do 7 ok_inv Hok.
    rewrite !schedule_app. schedule_silent.
    rewrite (schedule_for_each _ _ (schedule_online_epoch) _ _ Hok).
    done.
  - intros Hmode. revert Hok. unfold train, train_batch. rewrite Hmode.
    change (String.eqb "batch" "online") with false.
    rewrite String.eqb_refl. intros Hok. do 7 ok_inv Hok.
    rewrite !schedule_app. schedule_silent.
    rewrite (schedule_for_each _ _ (schedule_batch_epoch) _ _ Hok).
    done.
  - intros epoch s'. apply schedule_online_epoch.
  - intros epoch s'. apply schedule_batch_epoch.
Qed.


(** *** The evaluation phase *)

Lemma record_tabular_run (key : string) (v : Cell) (s : State) :
  record_tabular key v s =
  {| res := Ok tt;
     post := with_logger (logger_record_tabular key v (logger s)) s;
     events := [] |}.
Proof. reflexivity. Qed.

Lemma bind_record_tabular {B} (key : string) (v : Cell) (f : unit → M B)
    (s : State) :
  (record_tabular key v ≫= f) s
  = f tt (with_logger (logger_record_tabular key v (logger s)) s).
Proof. unfold record_tabular. by rewrite bind_modify. Qed.

Lemma for_each_record_run (l : list (string * Scalar)) (s : State) :
  for_each l (λ kv, record_tabular kv.1 (CScalar kv.2)) s =
  {| res := Ok tt;
     post := with_logger
               (fold_left (λ lg kv, logger_record_tabular kv.1 (CScalar kv.2) lg)
                  l (logger s)) s;
     events := [] |}.
Proof.
  revert s. induction l as [|kv l IH]; intros s; cbn [for_each fold_left].
  - by destruct s.
  - rewrite bind_record_tabular, IH. by st_simpl.
Qed.

Lemma evaluate_total (epoch : Z) (eval_paths : option (list Path)) :
  total (evaluate epoch eval_paths).
Proof.
  unfold evaluate, get_eval_paths, record_tabular. cbv zeta.
  repeat total_step.
Qed.

Lemma evaluate_flags_stale (epoch : Z) (eval_paths : option (list Path)) :
  ensures (evaluate epoch eval_paths)
    (λ s, need_to_update_eval_statistics s = true).
Proof.
  unfold evaluate. cbv zeta.
  repeat (apply ensures_bind; intros ?).
  by apply ensures_modify.
Qed.

Lemma evaluate_events_head (epoch : Z) (eval_paths : option (list Path))
    (s : State) :
  ∃ rest, events (evaluate epoch eval_paths s) = EvEvaluate epoch :: rest.
Proof. unfold evaluate. rewrite bind_emit. by eexists. Qed.

Lemma save_checkpoints_frame (epoch : Z)
    (X : list Path) (b : bool) (K : option (gset string)) :
  sat (λ s, _exploration_paths s = X
            ∧ need_to_update_eval_statistics s = b
            ∧ _old_table_keys s = K)
      (λ e, is_save e = true)
      (save_checkpoints D P epoch).
Proof.
  unfold save_checkpoints, get_extra_data_to_save.
  repeat sat_step; done.
Qed.

Lemma evaluate_frame (epoch : Z) (eval_paths : option (list Path))
    (K : option (gset string)) :
  sat (λ s, _old_table_keys s = K)
      (λ e, e ≠ EvDumpTabular)
      (evaluate epoch eval_paths).
Proof.
  unfold evaluate, get_eval_paths, record_tabular. cbv zeta.
  repeat sat_step; try done.
  intros s0 Hs. by repeat case_match.
Qed.

Lemma record_counters_and_times_frame (epoch : Z)
    (K : option (gset string)) :
  sat (λ s, _old_table_keys s = K)
      (λ _, False)
      (record_counters_and_times epoch).
Proof.
  unfold record_counters_and_times, record_tabular. cbv zeta.
  repeat sat_step; done.
Qed.

Lemma report_keeps_flag (epoch : Z) (b : bool) :
  sat (λ s, need_to_update_eval_statistics s = b)
      (λ _, True)
      (record_counters_and_times epoch ;; check_table_keys_and_dump).
Proof.
  unfold record_counters_and_times, check_table_keys_and_dump, record_tabular.
  cbv zeta. repeat sat_step; done.
Qed.

Lemma check_table_keys_and_dump_frame (b : bool) :
  sat (λ s, need_to_update_eval_statistics s = b)
      (λ _, True)
      check_table_keys_and_dump.
Proof.
  unfold check_table_keys_and_dump.
  repeat sat_step; done.
Qed.

Lemma try_to_eval_run (epoch : Z) (eval_paths : option (list Path))
    (s : State) :
  _try_to_eval D P epoch eval_paths s =
  let o0 := save_checkpoints D P epoch s in
  match res o0 with
  | Raise e => {| res := Raise e; post := post o0; events := events o0 |}
  | Ok _ =>
      if _can_evaluate (post o0) then
        prefix_events (events o0)
          ((evaluate epoch eval_paths ;;
            record_counters_and_times epoch ;;
            check_table_keys_and_dump) (post o0))
      else
        {| res := Ok tt;
           post := with_logger
                     (logger_log LogSkippingEval (logger (post o0))) (post o0);
           events := events o0 |}
  end.
Proof.
  unfold _try_to_eval. rewrite bind_run. cbv zeta.
  destruct (res (save_checkpoints D P epoch s)) as [[]|e]; [|done].
  rewrite bind_gets.
  destruct (_can_evaluate _); [done|].
  unfold prefix_events, modify. cbn. by rewrite app_nil_r.
Qed.

Lemma saves_are_not_evaluations (l : list Event) (epoch : Z) :
  Forall (λ e, is_save e = true) l → EvEvaluate epoch ∉ l.
Proof.
  intros HF Hin. rewrite Forall_forall in HF. by specialize (HF _ Hin).
Qed.

Lemma stale_means_no_evaluation
    (epoch : Z) (eval_paths : option (list Path)) (s : State) (e : Z) :
  need_to_update_eval_statistics s = true →
  EvEvaluate e ∉ events (_try_to_eval D P epoch eval_paths s).
Proof.
  intros Hstale. rewrite try_to_eval_run. cbv zeta.
  destruct (save_checkpoints_frame epoch (_exploration_paths s) true
              (_old_table_keys s) s) as [(_ & Hflag & _) Hev]; [done|].
  apply (saves_are_not_evaluations _ e) in Hev.
  destruct (res (save_checkpoints D P epoch s)) as [[]|err]; [|done].
  unfold _can_evaluate. rewrite Hflag, andb_false_r. done.
Qed.

(** C6: once the persistence sub-step is through, [_try_to_eval] runs
    [evaluate] if and only if some exploration path was collected and
    [need_to_update_eval_statistics] is false.  [evaluate] always sets the
    flag, nothing after it in [_try_to_eval] clears it, and while the flag
    is set no call of [_try_to_eval] evaluates: a second evaluation needs
    the learning algorithm to clear the flag in between. *)
Theorem evaluation_gate
    (epoch : Z) (eval_paths : option (list Path)) (s : State) :
  res (save_checkpoints D P epoch s) = Ok tt →
  let o := _try_to_eval D P epoch eval_paths s in
  (EvEvaluate epoch ∈ events o
   ↔ _exploration_paths s ≠ [] ∧ need_to_update_eval_statistics s = false)
  ∧ (EvEvaluate epoch ∈ events o →
       need_to_update_eval_statistics (post o) = true
       ∧ ∀ epoch' eval_paths' e,
           EvEvaluate e ∉ events (_try_to_eval D P epoch' eval_paths' (post o)))
  ∧ (∀ s' epoch' eval_paths' e,
       need_to_update_eval_statistics s' = true →
       EvEvaluate e ∉ events (_try_to_eval D P epoch' eval_paths' s')).
Proof.
  intros Hsave o.
  assert (Hgen : ∀ s' epoch' eval_paths' e,
            need_to_update_eval_statistics s' = true →
            EvEvaluate e ∉ events (_try_to_eval D P epoch' eval_paths' s')).
  { intros. by apply stale_means_no_evaluation. }
  destruct (save_checkpoints_frame epoch (_exploration_paths s)
              (need_to_update_eval_statistics s) (_old_table_keys s) s)
    as [(Hpaths & Hflag & _) Hev]; [done|].
  apply (saves_are_not_evaluations _ epoch) in Hev.
  assert (Hcan : _can_evaluate (post (save_checkpoints D P epoch s)) = true
                 ↔ _exploration_paths s ≠ []
                   ∧ need_to_update_eval_statistics s = false).
  { unfold _can_evaluate. rewrite Hpaths, Hflag, andb_true_iff, negb_true_iff.
    rewrite Z.ltb_lt. destruct (_exploration_paths s); cbn; [|split; intros [? ?]; split; done || lia].
    split; intros [? ?]; [lia | done]. }
  subst o. rewrite try_to_eval_run. cbv zeta. rewrite Hsave.
  destruct (_can_evaluate (post (save_checkpoints D P epoch s))) eqn:Ecan.
  - set (s0 := post (save_checkpoints D P epoch s)) in *.
    destruct (evaluate_total epoch eval_paths s0) as [[] Hok].
    destruct (evaluate_events_head epoch eval_paths s0) as [rest Hhead].
    pose proof (evaluate_flags_stale epoch eval_paths s0 tt Hok) as Hstale.
    assert (Hin : EvEvaluate epoch
                  ∈ events ((evaluate epoch eval_paths ;;
                             record_counters_and_times epoch ;;
                             check_table_keys_and_dump) s0)).
    { destruct (bind_events_prefix (evaluate epoch eval_paths)
                  (λ _, record_counters_and_times epoch ;;
                        check_table_keys_and_dump) s0) as [more ->].
      rewrite Hhead. set_solver. }
    assert (Hpost : need_to_update_eval_statistics
                      (post ((evaluate epoch eval_paths ;;
                              record_counters_and_times epoch ;;
                              check_table_keys_and_dump) s0)) = true).
    { rewrite bind_run, Hok. cbn [post prefix_events].
      by apply (report_keeps_flag epoch true). }
    cbn [events prefix_events post].
    split; [split; [intros _; by apply Hcan | intros _; set_solver]|].
    split; [|exact Hgen].
    intros _. split; [done|]. intros epoch' eval_paths' e.
    by apply Hgen.
  - cbn [events post].
    split; [split; [done | intros Hc; apply Hcan in Hc; congruence]|].
    split; [done | exact Hgen].
Qed.

(** C8: in an eligible evaluation, with a key set recorded by an earlier
    row, the row assembled by [evaluate] and the counters and timings is
    compared with it: different keys raise [NotImplementedError] and no row
    is dumped; the same keys let the row be dumped and the key set be
    recorded again. *)
Theorem table_keys_schema
    (epoch : Z) (eval_paths : option (list Path)) (s : State)
    (K : gset string) :
  res (save_checkpoints D P epoch s) = Ok tt →
  _can_evaluate s = true →
  _old_table_keys s = Some K →
  let s0 := post (save_checkpoints D P epoch s) in
  let o1 := (evaluate epoch eval_paths ;;
             record_counters_and_times epoch) s0 in
  res o1 = Ok tt →
  let table_keys := logger_get_table_key_set (logger (post o1)) in
  let o := _try_to_eval D P epoch eval_paths s in
  (table_keys ≠ K →
     res o = Raise NotImplementedError
     ∧ EvDumpTabular ∉ events o
     ∧ EvUpdateHeader ∈ events o
     ∧ _old_table_keys (post o) = Some K)
  ∧ (table_keys = K →
       res o = Ok tt
       ∧ EvDumpTabular ∈ events o
       ∧ _old_table_keys (post o) = Some table_keys
       ∧ logger (post o) = logger_dump_tabular (logger (post o1))).
Proof.
  intros Hsave Hcan Hold s0 o1 Hok table_keys o.
  destruct (save_checkpoints_frame epoch (_exploration_paths s)
              (need_to_update_eval_statistics s) (Some K) s)
    as [(Hpaths & Hflag & Hkeys) Hev]; [done|].
  fold s0 in Hpaths, Hflag, Hkeys.
  assert (Hcan0 : _can_evaluate s0 = true).
  { revert Hcan. unfold _can_evaluate. by rewrite Hpaths, Hflag. }
  assert (Hrep : sat (λ s, _old_table_keys s = Some K)
                   (λ e, e ≠ EvDumpTabular)
                   (evaluate epoch eval_paths ;;
                    record_counters_and_times epoch)).
  { apply sat_bind; [apply evaluate_frame|]. intros _.
    eapply sat_weaken; [|apply record_counters_and_times_frame]. done. }
  destruct (Hrep s0 Hkeys) as [Hkeys1 Hev1]. fold o1 in Hkeys1, Hev1.
  assert (Hnodump : EvDumpTabular
                    ∉ events (save_checkpoints D P epoch s) ++ events o1).
  { intros [Hin|Hin]%elem_of_app.
    - rewrite Forall_forall in Hev. by specialize (Hev _ Hin).
    - rewrite Forall_forall in Hev1. by specialize (Hev1 _ Hin). }
  subst o. rewrite try_to_eval_run. cbv zeta. rewrite Hsave. fold s0.
  rewrite Hcan0.
  rewrite <- (bind_assoc (evaluate epoch eval_paths)
                (λ _, record_counters_and_times epoch)
                (λ _, check_table_keys_and_dump)).
  rewrite bind_run. fold o1. rewrite Hok.
  unfold check_table_keys_and_dump. msimp. rewrite Hkeys1. fold table_keys.
  destruct (decide (table_keys = K)) as [Heq|Hne].
  - rewrite bool_decide_eq_false_2 by (intros Hc; by apply Hc).
    msimp. st_simpl. split; [done|]. intros _.
    split; [done|]. split; [set_solver|]. done.
  - rewrite bool_decide_eq_true_2 by done.
    msimp. st_simpl. split; [|done]. intros _.
    split; [done|]. split; [|split; [set_solver|done]].
    intros Hin. apply Hnodump. set_solver.
Qed.

(** *** The accelerator hand-off *)

(** C7, as amended: in a [gpu_opt] deployment the training phase moves the
    trainable components onto [cuda:gpu_id] and, whenever it returns, has
    moved them back to the CPU as its last two calls, whether or not it
    trained and however many updates ran.  When an update raises, the
    exception leaves [_try_to_train] at once: the state is the one the
    failing update left and no move to the CPU is made. *)
Theorem device_handoff (s : State) (g : Z) :
  mode_is (ptu_mode D) "gpu_opt" = true →
  gpu_id P = Some g →
  let o := _try_to_train D P Mt s in
  let burst := update_loop
                 (training_mode Mt true
                    (with_device (cuda g) (with_ptu_device (cuda g) s))) in
  EvTo (cuda g) ∈ events o
  ∧ (res o = Ok tt →
       device (post o) = cpu
       ∧ ptu_device (post o) = cpu
       ∧ ∃ evs, events o = evs ++ [EvSetDevice cpu; EvTo cpu])
  ∧ (∀ e, res o = Raise e →
       _can_train P s = true
       ∧ res burst = Raise e
       ∧ post o = post burst
       ∧ EvTo cpu ∉ events o).
Proof.
  intros Hm Hg o burst. subst o.
  rewrite try_to_train_run by (unfold gpu_opt; rewrite Hm, Hg; done).
  unfold acquired, acquire_events, released, release_events, gpu_opt.
  rewrite Hm, Hg. fold burst.
  destruct (update_loop_events (Z.to_nat (num_updates_per_train_call P))
              (training_mode Mt true
                 (with_device (cuda g) (with_ptu_device (cuda g) s))))
    as (HF & _ & _).
  fold update_loop in HF. fold burst in HF.
  assert (Hno : EvTo cpu ∉ events burst).
  { intros Hin. rewrite Forall_forall in HF. by specialize (HF _ Hin). }
  destruct (_can_train P s); cbv zeta.
  - destruct (res burst) as [[]|e] eqn:Hres; cbn [res post events app].
    + split; [set_solver|]. split; [|done]. intros _.
      split; [done|]. split; [done|].
      exists ([EvTryToTrain; EvSetDevice (cuda g); EvTo (cuda g);
               EvTrainingMode true] ++ events burst ++ [EvTrainingMode false]).
      cbn. by rewrite <- !app_assoc.
    + split; [set_solver|]. split; [done|]. intros e' [= <-].
      split; [done|]. split; [done|]. split; [done|].
      intros Hin. apply Hno. set_solver.
  - cbn [res post events app].
    split; [set_solver|]. split; [|done]. intros _.
    split; [done|]. split; [done|].
    by exists [EvTryToTrain; EvSetDevice (cuda g); EvTo (cuda g)].
Qed.

(** *** When training starts *)

Definition is_env_step (e : Event) : bool :=
  match e with EvEnvStep _ => true | _ => false end.

Definition count_steps (evs : list Event) : nat :=
  length (List.filter is_env_step evs).

(** The calls [evs] start with [n] environment steps during which no
    training takes place, and then switch to training mode. *)
Definition first_training_after (n : nat) (evs : list Event) : Prop :=
  ∃ pre rest,
    evs = pre ++ EvTrainingMode true :: rest
    ∧ EvTrainingMode true ∉ pre
    ∧ EvDoTraining ∉ pre
    ∧ count_steps pre = n.

Lemma count_steps_app (l1 l2 : list Event) :
  count_steps (l1 ++ l2) = (count_steps l1 + count_steps l2)%nat.
Proof. unfold count_steps. by rewrite List.filter_app, length_app. Qed.

Lemma first_training_prepend (l evs : list Event) (k n : nat) :
  EvTrainingMode true ∉ l → EvDoTraining ∉ l → count_steps l = k →
  first_training_after n evs →
  first_training_after (k + n) (l ++ evs).
Proof.
  intros Hm Hu Hk (pre & rest & -> & Hpm & Hpu & Hn).
  exists (l ++ pre), rest. rewrite app_assoc. split; [done|].
  split; [set_solver|]. split; [set_solver|].
  rewrite count_steps_app. lia.
Qed.

Lemma first_training_extend (evs more : list Event) (n : nat) :
  first_training_after n evs → first_training_after n (evs ++ more).
Proof.
  intros (pre & rest & -> & Hpm & Hpu & Hn).
  exists pre, (rest ++ more). by rewrite <- app_assoc.
Qed.

Lemma first_training_bind {A B} (m : M A) (f : A → M B) (s : State) (n : nat) :
  first_training_after n (events (m s)) →
  first_training_after n (events ((m ≫= f) s)).
Proof.
  intros Hm. destruct (bind_events_prefix m f s) as [more ->].
  by apply first_training_extend.
Qed.

Section FirstEpoch.
Hypothesis default_threshold :
  min_num_steps_before_training P = num_env_steps_per_epoch P.
Hypothesis handoff_defined : gpu_opt = true → is_Some (gpu_id P).
Hypothesis step_stored : ∀ ob a r nob t ai ei m s,
  (_handle_step Mt ob a r nob t ai ei (Some m) s).1 = Ok tt
  ∧ rb_num_steps_can_sample
      (replay_buffer (_handle_step Mt ob a r nob t ai ei (Some m) s).2)
    = rb_num_steps_can_sample (replay_buffer s) + 1.
Hypothesis boundary_keeps_count : ∀ b,
  rb_num_steps_can_sample (rb_terminate_episode b) = rb_num_steps_can_sample b.
Hypothesis env_has_blocks : ∀ e, is_Some (env_num_blocks e).
Hypothesis buffer_has_blocks : ∀ b, is_Some (rb_max_num_blocks b).

Let ready (s : State) : Z := rb_num_steps_can_sample (replay_buffer s).
Let N : Z := num_env_steps_per_epoch P.

Lemma take_step_counts (observation : Obs) (s : State) :
  let o := _take_step_in_env P Mt observation s in
  is_ok (res o) = true
  ∧ ready (post o) = ready s + 1
  ∧ EvTrainingMode true ∉ events o
  ∧ EvDoTraining ∉ events o
  ∧ count_steps (events o) = 1%nat.
Proof.
  cbv zeta. rewrite take_step_in_env_run. cbv zeta.
  rewrite take_step_record_events.
  rewrite take_step_record_run. cbv zeta. unfold step_mask.
  destruct (env_has_blocks (training_env (stepped observation s))) as [nb ->].
  destruct (buffer_has_blocks (replay_buffer (stepped observation s)))
    as [mb ->].
  match goal with
  | |- context [_handle_step Mt ?ob ?a ?r ?nob ?t ?ai ?ei (Some ?m) ?s1] =>
      destruct (step_stored ob a r nob t ai ei m s1) as [Hok Hcount];
      rewrite Hok; cbn [res post events];
      set (s2 := (_handle_step Mt ob a r nob t ai ei (Some m) s1).2) in *
  end.
  assert (Hs2 : ready s2 = ready s + 1).
  { unfold ready. rewrite Hcount. unfold stepped. by st_simpl. }
  destruct (rollout_ends _ s2); cbn [res post events is_ok].
  - split; [done|]. split.
    { unfold ready, restarted. st_simpl. rewrite ended_replay_buffer.
      rewrite boundary_keeps_count. exact Hs2. }
    split; [set_solver|]. split; [set_solver|]. done.
  - split; [done|]. split; [done|].
    split; [set_solver|]. split; [set_solver|]. done.
Qed.

Lemma try_to_train_below (s : State) :
  ready s < N →
  let o := _try_to_train D P Mt s in
  res o = Ok tt
  ∧ ready (post o) = ready s
  ∧ EvTrainingMode true ∉ events o
  ∧ EvDoTraining ∉ events o
  ∧ count_steps (events o) = 0%nat.
Proof.
  intros Hlt. cbv zeta. rewrite try_to_train_run by exact handoff_defined.
  unfold _can_train. rewrite default_threshold.
  fold N. fold (ready s). rewrite (proj2 (Z.leb_gt N (ready s)) Hlt).
  cbn [res post events].
  unfold acquire_events, release_events, acquired, released, ready.
  destruct gpu_opt, (gpu_id P); cbn; st_simpl.
  all: repeat split; try done; set_solver.
Qed.

Lemma try_to_train_reached (s : State) :
  N ≤ ready s →
  first_training_after 0 (events (_try_to_train D P Mt s)).
Proof.
  intros Hle. rewrite try_to_train_run by exact handoff_defined.
  unfold _can_train. rewrite default_threshold.
  fold N. fold (ready s). rewrite (proj2 (Z.leb_le N (ready s)) Hle).
  cbv zeta.
  exists (EvTryToTrain :: acquire_events).
  destruct (res (update_loop _)); cbn [events]; eexists.
  all: split; [rewrite <- app_comm_cons; reflexivity|].
  all: unfold acquire_events; destruct gpu_opt, (gpu_id P); cbn.
  all: repeat split; try done; set_solver.
Qed.

Lemma stamp_run (name : string) (s : State) :
  stamp name s
  = {| res := Ok tt; post := with_gt (gt_stamp name (gt s)) s; events := [] |}.
Proof. reflexivity. Qed.

Lemma bind_stamp {B} (name : string) (f : unit → M B) (s : State) :
  (stamp name ≫= f) s = f tt (with_gt (gt_stamp name (gt s)) s).
Proof. unfold stamp. by rewrite bind_modify. Qed.

Lemma online_steps_first_training (n : nat) (observation : Obs) (s : State) :
  (0 < n)%nat → ready s + Z.of_nat n = N →
  first_training_after n (events (online_steps D P Mt n observation s)).
Proof.
  revert observation s. induction n as [|n IH]; intros observation s Hn Hsum;
    [lia|].
  cbn [online_steps].
  destruct (take_step_counts observation s) as (Hok & Hready & Hm & Hu & Hc).
  rewrite bind_run.
  destruct (res (_take_step_in_env P Mt observation s)) as [ob'|e];
    [|done]. cbn [events prefix_events].
  change (S n) with (1 + n)%nat.
  apply first_training_prepend; [done | done | done |].
  set (s1 := post (_take_step_in_env P Mt observation s)) in *.
  cbv beta. rewrite bind_stamp.
  set (s2 := with_gt (gt_stamp "sample" (gt s1)) s1).
  assert (Hs2 : ready s2 = ready s + 1) by (unfold ready, s2; by st_simpl).
  destruct n as [|n].
  - apply first_training_bind. apply try_to_train_reached. lia.
  - destruct (try_to_train_below s2) as (Hok2 & Hready2 & Hm2 & Hu2 & Hc2);
      [lia|].
    rewrite bind_run, Hok2. cbn [events prefix_events].
    change (S n) with (0 + S n)%nat.
    apply first_training_prepend; [done | done | done |].
    cbv beta. rewrite bind_stamp.
    apply IH; [lia|]. unfold ready in *. st_simpl. lia.
Qed.

Lemma batch_steps_count (n : nat) (observation : Obs) (s : State) :
  let o := batch_steps P Mt n observation s in
  res o = Ok tt
  ∧ ready (post o) = ready s + Z.of_nat n
  ∧ EvTrainingMode true ∉ events o
  ∧ EvDoTraining ∉ events o
  ∧ count_steps (events o) = n.
Proof.
  revert observation s. induction n as [|n IH]; intros observation s;
    cbn [batch_steps].
  - cbn. repeat split; try done; [lia | set_solver | set_solver].
  - destruct (take_step_counts observation s) as (Hok & Hready & Hm & Hu & Hc).
    cbv zeta. rewrite bind_run.
    destruct (res (_take_step_in_env P Mt observation s)) as [ob'|e];
      [|done]. cbn [res post events prefix_events].
    destruct (IH ob' (post (_take_step_in_env P Mt observation s)))
      as (IH1 & IH2 & IH3 & IH4 & IH5).
    split; [done|]. split; [lia|].
    split; [set_solver|]. split; [set_solver|].
    rewrite count_steps_app. lia.
Qed.

(** The prologue of an epoch: it raises nothing, leaves the replay buffer
    alone and neither steps nor trains. *)
Lemma epoch_prologue_quiet (epoch : Z) (s : State) :
  let o := (_start_epoch epoch ;;
            modify (λ s, with_training_env
                           (set_to_train_mode (training_env s)) s) ;;
            _start_new_rollout) s in
  is_ok (res o) = true
  ∧ ready (post o) = ready s
  ∧ EvTrainingMode true ∉ events o
  ∧ EvDoTraining ∉ events o
  ∧ count_steps (events o) = 0%nat.
Proof.
  unfold _start_epoch, _start_new_rollout. msimp. st_simpl.
  unfold ready. st_simpl. repeat split; try done; set_solver.
Qed.

Lemma epoch_prologue_split (g : Obs → M unit) (epoch : Z) (s : State) :
  (_start_epoch epoch ;;
   modify (λ s, with_training_env (set_to_train_mode (training_env s)) s) ;;
   observation ← _start_new_rollout ;
   g observation) s
  = ((_start_epoch epoch ;;
      modify (λ s, with_training_env
                     (set_to_train_mode (training_env s)) s) ;;
      _start_new_rollout) ≫= g) s.
Proof. unfold _start_epoch, _start_new_rollout. by msimp. Qed.

Lemma online_epoch_first_training (epoch : Z) (s : State) :
  ready s = 0 → 0 < N →
  first_training_after (Z.to_nat N) (events (online_epoch D P Mt epoch s)).
Proof.
  intros Hempty Hpos. unfold online_epoch. fold N.
  destruct (epoch_prologue_quiet epoch s) as (Hok & Hready & Hm & Hu & Hc).
  rewrite epoch_prologue_split, bind_run.
  destruct (res ((_start_epoch epoch ≫= _) s)) as [ob|e]; [|done].
  cbn [events prefix_events].
  apply (first_training_prepend _ _ 0 (Z.to_nat N)); [done | done | done |].
  apply first_training_bind.
  apply online_steps_first_training; lia.
Qed.

Lemma batch_epoch_first_training (epoch : Z) (s : State) :
  ready s = 0 →
  first_training_after (Z.to_nat N) (events (batch_epoch D P Mt epoch s)).
Proof.
  intros Hempty. unfold batch_epoch. fold N.
  destruct (epoch_prologue_quiet epoch s) as (Hok & Hready & Hm & Hu & Hc).
  rewrite epoch_prologue_split, bind_run.
  destruct (res ((_start_epoch epoch ≫= _) s)) as [ob|e]; [|done].
  cbn [events prefix_events].
  apply (first_training_prepend _ _ 0 (Z.to_nat N)); [done | done | done |].
  cbv beta. set (s1 := post ((_start_epoch epoch ≫= _) s)) in *.
  destruct (batch_steps_count (Z.to_nat N) ob s1)
    as (Hok1 & Hready1 & Hm1 & Hu1 & Hc1).
  rewrite bind_run, Hok1. cbn [events prefix_events].
  replace (Z.to_nat N) with (Z.to_nat N + 0)%nat at 1 by lia.
  apply (first_training_prepend _ _ (Z.to_nat N) 0); [done | done | done |].
  cbv beta. rewrite bind_stamp.
  apply first_training_bind. apply try_to_train_reached.
  unfold ready in *. st_simpl. lia.
Qed.

End FirstEpoch.

End Properties.

(** ** Properties of the constructor *)

Section ConstructionProperties.
Context `{Collaborators}.

Lemma string_eqb_false (x y : string) : x ≠ y → String.eqb x y = false.
Proof. intros Hne. by apply String.eqb_neq. Qed.


End ConstructionProperties.

(** ** The first epoch of a run *)

Section FirstEpochOfARun.
Context `{Collaborators}.

Lemma init_ok_inv (D : Deployment) (amb : Ambient) (a : Args)
    (P : Params) (s0 : State) :
  __init__ D amb a = Ok (P, s0) →
  num_env_steps_per_epoch P = arg_num_steps_per_epoch a
  ∧ min_num_steps_before_training P
    = default (arg_num_steps_per_epoch a) (arg_min_num_steps_before_training a)
  ∧ collection_mode P = arg_collection_mode a
  ∧ (collection_mode P = "online" ∨ collection_mode P = "batch")
  ∧ num_epochs_per_eval P ≠ 0
  ∧ num_epochs_per_param_save P mod num_epochs_per_eval P = 0
  ∧ need_to_update_eval_statistics s0 = true
  ∧ _exploration_paths s0 = []
  ∧ _current_path_builder s0 = []
  ∧ _old_table_keys s0 = None
  ∧ _n_env_steps_total s0 = 0
  ∧ _n_train_steps_total s0 = 0
  ∧ _n_rollouts_total s0 = 0.
Proof.
  unfold __init__, is_online, is_batch, py_mod.
  destruct (String.eqb_spec (arg_collection_mode a) "online") as [Hon|Hon];
    destruct (String.eqb_spec (arg_collection_mode a) "batch") as [Hba|Hba];
    cbn [orb negb andb]; try discriminate.
  all: try (destruct (bool_decide _); cbn [negb]; try discriminate).
  all: destruct (arg_eval_sampler a), (arg_eval_policy a).
  all: destruct (MPI D);
         [destruct (mode_truthy (ptu_mode D));
            [destruct (arg_num_gpus a =? 0); try discriminate|]|].
  all: destruct (arg_num_epochs_per_eval a =? 0) eqn:He; try discriminate.
  all: destruct (_ mod _ =? 0) eqn:Hmod; cbn [negb]; try discriminate.
  all: apply Z.eqb_neq in He; apply Z.eqb_eq in Hmod.
  all: intros [= <- <-]; cbn.
  all: repeat split; try done; auto.
Qed.

(** C2, as amended: with [min_num_steps_before_training] left unset the
    threshold is [num_env_steps_per_epoch], so a training phase performs no
    update while the replay buffer reports fewer steps than that.  With a
    step handler that stores one step per environment step and a buffer
    that starts the epoch empty, the first epoch does reach the threshold:
    the training phase that follows its last environment step trains, in
    online mode (the last of the epoch) and in batch mode (its only one);
    none before it does. *)
Theorem first_epoch_training
    (D : Deployment) (amb : Ambient) (a : Args)
    (P : Params) (s0 : State) (Mt : Methods) :
  __init__ D amb a = Ok (P, s0) →
  arg_min_num_steps_before_training a = None →
  (mode_is (ptu_mode D) "gpu_opt" = true → is_Some (gpu_id P)) →
  (∀ ob a r nob t ai ei m s,
     (_handle_step Mt ob a r nob t ai ei (Some m) s).1 = Ok tt
     ∧ rb_num_steps_can_sample
         (replay_buffer (_handle_step Mt ob a r nob t ai ei (Some m) s).2)
       = rb_num_steps_can_sample (replay_buffer s) + 1) →
  (∀ b, rb_num_steps_can_sample (rb_terminate_episode b)
        = rb_num_steps_can_sample b) →
  (∀ e, is_Some (env_num_blocks e)) →
  (∀ b, is_Some (rb_max_num_blocks b)) →
  let N := num_env_steps_per_epoch P in
  min_num_steps_before_training P = N
  ∧ (∀ s, rb_num_steps_can_sample (replay_buffer s) < N →
       res (_try_to_train D P Mt s) = Ok tt
       ∧ EvTrainingMode true ∉ events (_try_to_train D P Mt s)
       ∧ EvDoTraining ∉ events (_try_to_train D P Mt s))
  ∧ (∀ epoch s, rb_num_steps_can_sample (replay_buffer s) = 0 → 0 < N →
       first_training_after (Z.to_nat N)
         (events (online_epoch D P Mt epoch s)))
  ∧ (∀ epoch s, rb_num_steps_can_sample (replay_buffer s) = 0 →
       first_training_after (Z.to_nat N)
         (events (batch_epoch D P Mt epoch s))).
Proof.
  intros Hinit Hunset Hgpu Hstep Hterm Henv Hbuf N.
  assert (Hmin : min_num_steps_before_training P = num_env_steps_per_epoch P).
  { destruct (init_ok_inv _ _ _ _ _ Hinit) as (-> & -> & _).
    by rewrite Hunset. }
  split; [exact Hmin|]. split; [|split].
  - intros s Hlt.
    destruct (try_to_train_below D P Mt Hmin Hgpu Hstep Hterm Henv Hbuf s Hlt)
      as (Hok & _ & Hm & Hu & _).
    done.
  - intros epoch s Hempty Hpos.
    by apply online_epoch_first_training.
  - intros epoch s Hempty.
    by apply batch_epoch_first_training.
Qed.

End FirstEpochOfARun.

(** ** The properties at work on the concrete deployment *)

Module DemoRuns.
Import Demo.

(** The object built for rank 0 of a [gpu_opt] run in batch mode, and the
    object built without mpi4py in either mode. *)
Definition gpu_params : Params := (built mpi_gpu_opt "batch" 1).1.
Definition gpu_state : State := (built mpi_gpu_opt "batch" 1).2.
Definition online_params : Params := (built no_mpi "online" 1).1.
Definition online_state : State := (built no_mpi "online" 1).2.
Definition batch_params : Params := (built no_mpi "batch" 1).1.
Definition batch_state : State := (built no_mpi "batch" 1).2.

(** The same object once its replay buffer holds five steps. *)
Definition gpu_state_ready : State := with_replay_buffer 5 gpu_state.

(** The online object two steps into a rollout: the environment will
    report [terminal] on the next step. *)
Definition online_state_mid : State :=
  with_training_env (H0 := collaborators) 2 online_state.

(** The online object at the end of its run of one epoch (its row was
    dumped, so the key set is recorded), and the same once the learning
    algorithm has refreshed its statistics. *)
Definition online_state_after : State :=
  post (train no_mpi online_params methods 0 online_state).
Definition online_state_refreshed : State :=
  with_need_to_update_eval_statistics false online_state_after.
Definition row_keys : gset string :=
  default ∅ (_old_table_keys online_state_after).

End DemoRuns.


Lemma first_epoch_trains :
  (arg_min_num_steps_before_training (Demo.args "online" 1) = None
   ∧ EvDoTraining
     ∈ events (train Demo.no_mpi DemoRuns.online_params Demo.methods 0
                 DemoRuns.online_state))
  ∧ (arg_min_num_steps_before_training (Demo.args "batch" 1) = None
     ∧ EvDoTraining
       ∈ events (train Demo.no_mpi DemoRuns.batch_params Demo.methods 0
                   DemoRuns.batch_state)).
Proof.
  split; (split; [reflexivity|]).
  - apply list_elem_of_In.
    assert (Hb : existsb is_update
                   (events (train Demo.no_mpi DemoRuns.online_params
                              Demo.methods 0 DemoRuns.online_state)) = true)
      by (vm_compute; reflexivity).
    apply existsb_exists in Hb as (e & Hin & He). by destruct e.
  - apply list_elem_of_In.
    assert (Hb : existsb is_update
                   (events (train Demo.no_mpi DemoRuns.batch_params
                              Demo.methods 0 DemoRuns.batch_state)) = true)
      by (vm_compute; reflexivity).
    apply existsb_exists in Hb as (e & Hin & He). by destruct e.
Qed.

Lemma take_step_rollout_boundary_witness :
  let s := DemoRuns.online_state_mid in
  let o := _take_step_in_env DemoRuns.online_params Demo.methods (2 : Z) s in
  res (take_step_record DemoRuns.online_params Demo.methods (2 : Z) s)
  = Ok (3, true)
  ∧ res o = Ok 0
  ∧ events o = [@EvEnvStep Demo.data Demo.collaborators 2;
                EvTerminateEpisode; EvEnvReset].
Proof.
  cbv zeta.
  assert (Hrec : res (take_step_record DemoRuns.online_params Demo.methods
                        (2 : Z) DemoRuns.online_state_mid)
                 = Ok (3, true)) by (vm_compute; reflexivity).
  split; [exact Hrec|].
  destruct (take_step_rollout_boundary DemoRuns.online_params Demo.methods
              (2 : Z) DemoRuns.online_state_mid 3 true Hrec)
    as (_ & _ & Hends & _).
  destruct Hends as (Hres & _ & Hev & _); [by left|].
  split; [exact Hres | exact Hev].
Defined.

Lemma training_schedule_witness :
  res (train Demo.no_mpi DemoRuns.online_params Demo.methods 0
         DemoRuns.online_state) = Ok tt
  ∧ schedule (events (train Demo.no_mpi DemoRuns.online_params Demo.methods 0
                        DemoRuns.online_state))
    = [StepPhase; TrainPhase; StepPhase; TrainPhase; StepPhase; TrainPhase;
       StepPhase; TrainPhase; StepPhase; TrainPhase].
Proof.
  assert (Hok : res (train Demo.no_mpi DemoRuns.online_params Demo.methods 0
                       DemoRuns.online_state) = Ok tt)
    by (vm_compute; reflexivity).
  split; [exact Hok|].
  destruct (training_schedule Demo.no_mpi DemoRuns.online_params Demo.methods
              0 DemoRuns.online_state Hok) as (Honline & _).
  rewrite Honline by reflexivity. reflexivity.
Defined.

Lemma evaluation_gate_witness :
  let o := _try_to_eval Demo.no_mpi DemoRuns.online_params 1 None
             DemoRuns.online_state_refreshed in
  EvEvaluate 1 ∈ events o
  ∧ need_to_update_eval_statistics (post o) = true
  ∧ EvEvaluate 2
    ∉ events (_try_to_eval Demo.no_mpi DemoRuns.online_params 2 None (post o)).
Proof.
  cbv zeta.
  assert (Hsave : res (save_checkpoints Demo.no_mpi DemoRuns.online_params 1
                         DemoRuns.online_state_refreshed) = Ok tt)
    by (vm_compute; reflexivity).
  destruct (evaluation_gate Demo.no_mpi DemoRuns.online_params 1 None
              DemoRuns.online_state_refreshed Hsave) as (Hiff & Hafter & _).
  assert (Hin : EvEvaluate 1
                ∈ events (_try_to_eval Demo.no_mpi DemoRuns.online_params 1
                            None DemoRuns.online_state_refreshed)).
  { apply Hiff. split; [|vm_compute; reflexivity].
    vm_compute. discriminate. }
  split; [exact Hin|].
  destruct (Hafter Hin) as [Hflag Hnext].
  split; [exact Hflag | apply Hnext].
Defined.

Lemma device_handoff_witness :
  let o := _try_to_train Demo.mpi_gpu_opt DemoRuns.gpu_params Demo.methods
             DemoRuns.gpu_state_ready in
  res o = Ok tt ∧ device (post o) = cpu ∧ ptu_device (post o) = cpu.
Proof.
  cbv zeta.
  destruct (device_handoff Demo.mpi_gpu_opt DemoRuns.gpu_params Demo.methods
              DemoRuns.gpu_state_ready 0
              ltac:(vm_compute; reflexivity) ltac:(vm_compute; reflexivity))
    as (_ & Hok & _).
  assert (Hres : res (_try_to_train Demo.mpi_gpu_opt DemoRuns.gpu_params
                        Demo.methods DemoRuns.gpu_state_ready) = Ok tt)
    by (vm_compute; reflexivity).
  destruct (Hok Hres) as (Hdev & Hptu & _).
  split; [exact Hres|]. split; [exact Hdev | exact Hptu].
Defined.

Lemma failed_update_keeps_accelerator :
  let o := _try_to_train Demo.mpi_gpu_opt DemoRuns.gpu_params
             Demo.failing_methods DemoRuns.gpu_state_ready in
  let run := train Demo.mpi_gpu_opt DemoRuns.gpu_params
               Demo.failing_methods 0 DemoRuns.gpu_state in
  (events o = [EvTryToTrain; EvSetDevice (cuda 0); EvTo (cuda 0);
               EvTrainingMode true; EvDoTraining]
   ∧ res o = Raise (UpdateError 1)
   ∧ device (post o) = cuda 0)
  ∧ (res run = Raise (UpdateError 1) ∧ device (post run) = cuda 0).
Proof. vm_compute. repeat split; reflexivity. Qed.

Lemma table_keys_schema_witness :
  let o := _try_to_eval Demo.no_mpi DemoRuns.online_params 1 None
             DemoRuns.online_state_refreshed in
  res o = Ok tt
  ∧ EvDumpTabular ∈ events o
  ∧ _old_table_keys (post o) = Some DemoRuns.row_keys.
Proof.
  cbv zeta.
  destruct (table_keys_schema Demo.no_mpi DemoRuns.online_params 1 None
              DemoRuns.online_state_refreshed DemoRuns.row_keys
              ltac:(vm_compute; reflexivity) ltac:(vm_compute; reflexivity)
              ltac:(vm_compute; reflexivity) ltac:(vm_compute; reflexivity))
    as (_ & Hsame).
  destruct Hsame as (Hres & Hdump & Hkeys & _); [vm_compute; reflexivity|].
  split; [exact Hres|]. split; [exact Hdump|].
  rewrite Hkeys. vm_compute. reflexivity.
Defined.


Lemma no_persistence_without_mpi_witness :
  Forall (λ e, is_save e = false)
    (events (train Demo.no_mpi DemoRuns.online_params Demo.methods 0
               DemoRuns.online_state)).
Proof.
  destruct (no_persistence_without_mpi Demo.no_mpi DemoRuns.online_params
              Demo.methods ltac:(reflexivity)) as (_ & Htrain).
  apply Htrain.
Defined.

Lemma first_epoch_training_witness :
  first_training_after 5
    (events (online_epoch Demo.no_mpi DemoRuns.online_params Demo.methods 0
               DemoRuns.online_state))
  ∧ first_training_after 5
      (events (batch_epoch Demo.no_mpi DemoRuns.online_params Demo.methods 0
                 DemoRuns.online_state)).
Proof.
  destruct (first_epoch_training Demo.no_mpi Demo.ambient
              (Demo.args "online" 1) DemoRuns.online_params
              DemoRuns.online_state Demo.methods)
    as (_ & _ & Honline & Hbatch).
  - vm_compute. reflexivity.
  - reflexivity.
  - intros Hmode. vm_compute in Hmode. discriminate.
  - intros ob a r nob t ai ei m s. split; reflexivity.
  - intros b. reflexivity.
  - intros e. by eexists.
  - intros b. by eexists.
  - split.
    + apply (Honline 0 DemoRuns.online_state); [reflexivity | vm_compute; reflexivity].
    + apply (Hbatch 0 DemoRuns.online_state). reflexivity.
Defined.

(** * Further methods and their properties *)

(** ** [_handle_path] and the step handler of the base class *)

Section HandlePath.
Context `{Collaborators}.

(** [zip(path["observations"], ..., path["env_infos"])]: the transitions
    of a stacked path, as many as its shortest field has entries. *)
Fixpoint zip_fields
    (obs : list Obs) (acts : list Action) (rews : list Scalar)
    (nobs : list Obs) (terms : list bool)
    (ais : list AgentInfo) (eis : list EnvInfo) : list Transition :=
  match obs, acts, rews, nobs, terms, ais, eis with
  | ob :: obs', a :: acts', r :: rews', nob :: nobs', t :: terms',
    ai :: ais', ei :: eis' =>
      {| t_observation := ob; t_action := a; t_reward := r;
         t_next_observation := nob; t_terminal := t;
         t_agent_info := ai; t_env_info := ei |}
      :: zip_fields obs' acts' rews' nobs' terms' ais' eis'
  | _, _, _, _, _, _, _ => []
  end.

Definition path_transitions (path : Path) : list Transition :=
  zip_fields (observations path) (actions path) (rewards path)
    (next_observations path) (terminals path)
    (agent_infos path) (env_infos path).

(** [_handle_path]: every transition goes through [_handle_step], called
    without the [mask] keyword, and the rollout is ended. *)
Definition _handle_path (Mt : Methods) (path : Path) : M unit :=
  for_each (path_transitions path)
    (λ t, call (_handle_step Mt (t_observation t) (t_action t) (t_reward t)
                  (t_next_observation t) (t_terminal t)
                  (t_agent_info t) (t_env_info t) None)) ;;
  _handle_rollout_ending.

(** A subclass that defines the two abstract methods and nothing else:
    [_handle_step] is the one of [RLAlgorithm]. *)
Definition RLAlgorithm_methods
    (training_mode : bool → State → State) (_do_training : Hook unit)
    (post_epoch_funcs : list (Z → Hook unit)) : Methods :=
  {| training_mode := training_mode;
     _do_training := _do_training;
     _handle_step := RLAlgorithm_handle_step;
     post_epoch_funcs := post_epoch_funcs |}.

(** A path whose fields all have the same number of entries. *)
Definition well_formed_path (path : Path) : Prop :=
  length (actions path) = length (observations path)
  ∧ length (rewards path) = length (observations path)
  ∧ length (next_observations path) = length (observations path)
  ∧ length (terminals path) = length (observations path)
  ∧ length (agent_infos path) = length (observations path)
  ∧ length (env_infos path) = length (observations path).

Lemma stack_zip_fields obs acts rews nobs terms ais eis :
  length acts = length obs → length rews = length obs →
  length nobs = length obs → length terms = length obs →
  length ais = length obs → length eis = length obs →
  get_all_stacked (zip_fields obs acts rews nobs terms ais eis)
  = {| observations := obs; actions := acts; rewards := rews;
       next_observations := nobs; terminals := terms;
       agent_infos := ais; env_infos := eis |}.
Proof.
  revert acts rews nobs terms ais eis.
  induction obs as [|ob obs IH];
    intros [|a acts] [|r rews] [|nob nobs] [|t terms] [|ai ais] [|ei eis];
    cbn [length]; try discriminate; [done|].
  intros [= H1] [= H2] [= H3] [= H4] [= H5] [= H6].
  cbn [zip_fields]. unfold get_all_stacked in *. cbn [fmap list_fmap].
  specialize (IH acts rews nobs terms ais eis H1 H2 H3 H4 H5 H6).
  injection IH as -> -> -> -> -> -> ->. done.
Qed.

Lemma zip_stack_fields (pb : PathBuilder) :
  path_transitions (get_all_stacked pb) = pb.
Proof.
  unfold path_transitions, get_all_stacked. cbn.
  induction pb as [|[ob a r nob t ai ei] pb IH]; [done|].
  cbn. by rewrite IH.
Qed.

Lemma length_path_transitions (path : Path) :
  (length (path_transitions path) ≤ length (observations path))%nat.
Proof.
  unfold path_transitions.
  generalize (actions path) (rewards path) (next_observations path)
    (terminals path) (agent_infos path) (env_infos path).
  induction (observations path) as [|ob obs IH];
    intros [|a acts] [|r rews] [|nob nobs] [|t terms] [|ai ais] [|ei eis];
    cbn; try lia.
  specialize (IH acts rews nobs terms ais eis). lia.
Qed.

End HandlePath.

Section HandlePathProperties.
Context `{Collaborators}.
Variable Mt : Methods.

(** The handler of the base class is in place for calls without [mask]. *)
Definition base_step_handler : Prop :=
  ∀ ob a r nob t ai ei s,
    _handle_step Mt ob a r nob t ai ei None s
    = RLAlgorithm_handle_step ob a r nob t ai ei None s.

Definition store_all (ts : list Transition) (b : ReplayBuffer) : ReplayBuffer :=
  fold_left (λ b t, rb_add_sample t b) ts b.

Lemma handle_transitions_run (ts : list Transition) (s : State) :
  base_step_handler →
  for_each ts
    (λ t, call (_handle_step Mt (t_observation t) (t_action t) (t_reward t)
                  (t_next_observation t) (t_terminal t)
                  (t_agent_info t) (t_env_info t) None)) s
  = {| res := Ok tt;
       post := with_replay_buffer (store_all ts (replay_buffer s))
                 (with_current_path_builder (_current_path_builder s ++ ts) s);
       events := [] |}.
Proof.
  intros Hbase. revert s. induction ts as [|t ts IH]; intros s;
    cbn [for_each store_all fold_left].
  - rewrite app_nil_r. by destruct s.
  - rewrite bind_call, Hbase. cbn [RLAlgorithm_handle_step fst snd].
    rewrite IH. st_simpl. unfold add_all. rewrite <- app_assoc.
    destruct t. reflexivity.
Qed.

(** X1: [_handle_path] with the step handler of the base class hands every
    transition of the path to the replay buffer, in order, then tells it the
    episode is over and counts one rollout; the transitions join the path
    builder, which is materialized into one exploration path and left
    empty.  A well-formed, non-empty path handled on an empty builder comes
    back as the very path that went in. *)
Theorem handle_path_records (path : Path) (s : State) :
  base_step_handler →
  let ts := path_transitions path in
  let o := _handle_path Mt path s in
  let pb := _current_path_builder s ++ ts in
  res o = Ok tt
  ∧ replay_buffer (post o)
    = rb_terminate_episode (store_all ts (replay_buffer s))
  ∧ _n_rollouts_total (post o) = _n_rollouts_total s + 1
  ∧ _current_path_builder (post o) = []
  ∧ _exploration_paths (post o)
    = (if pb is [] then _exploration_paths s
       else _exploration_paths s ++ [get_all_stacked pb])
  ∧ (_current_path_builder s = [] → well_formed_path path →
     observations path ≠ [] →
     _exploration_paths (post o) = _exploration_paths s ++ [path]).
Proof.
  intros Hbase ts o pb. subst o. unfold _handle_path.
  rewrite bind_run, (handle_transitions_run _ _ Hbase).
  cbn [res post events prefix_events]. fold ts. fold pb.
  rewrite handle_rollout_ending_run. cbn [res post events].
  unfold ended, pb_len. st_simpl.
  assert (Hpaths :
    _exploration_paths
      (if 0 <? Z.of_nat (length pb)
       then with_current_path_builder PathBuilder_new
              (with_exploration_paths
                 (_exploration_paths s ++ [get_all_stacked pb])
                 (with_n_rollouts_total (_n_rollouts_total s + 1)
                    (with_replay_buffer
                       (rb_terminate_episode
                          (store_all ts (replay_buffer s)))
                       (with_replay_buffer (store_all ts (replay_buffer s))
                          (with_current_path_builder pb s)))))
       else with_n_rollouts_total (_n_rollouts_total s + 1)
              (with_replay_buffer
                 (rb_terminate_episode (store_all ts (replay_buffer s)))
                 (with_replay_buffer (store_all ts (replay_buffer s))
                    (with_current_path_builder pb s))))
    = (if pb is [] then _exploration_paths s
       else _exploration_paths s ++ [get_all_stacked pb])).
  { by destruct pb. }
  split; [done|]. split; [by destruct pb|]. split; [by destruct pb|].
  split; [by destruct pb|]. split; [exact Hpaths|].
  intros Hempty (H1 & H2 & H3 & H4 & H5 & H6) Hne.
  rewrite Hpaths. subst pb. rewrite Hempty. cbn [app].
  assert (Hstack : get_all_stacked ts = path).
  { subst ts. unfold path_transitions.
    rewrite stack_zip_fields by done. by destruct path. }
  destruct ts as [|t ts'] eqn:Hts; [|by rewrite Hstack].
  exfalso. apply Hne. rewrite <- Hstack. reflexivity.
Qed.

End HandlePathProperties.

Lemma handle_path_records_witness :
  _exploration_paths
    (post (_handle_path Demo.methods Demo.one_path DemoRuns.online_state))
  = [Demo.one_path].
Proof.
  assert (Hbase : base_step_handler Demo.methods) by (intros ? ? ? ? ? ? ? ?; reflexivity).
  destruct (handle_path_records Demo.methods Demo.one_path
              DemoRuns.online_state Hbase) as (_ & _ & _ & _ & _ & Hround).
  apply Hround.
  - reflexivity.
  - repeat split.
  - discriminate.
Defined.

(** ** The base class cannot take a step *)

Section BaseClassStep.
Context `{Collaborators}.
Variable D : Deployment.
Variable P : Params.
Variable training_mode : bool → State → State.
Variable _do_training : Hook unit.
Variable post_epoch_funcs : list (Z → Hook unit).

Let Mt : Methods :=
  RLAlgorithm_methods training_mode _do_training post_epoch_funcs.

Lemma base_take_step_record_run (observation : Obs) (s : State) :
  take_step_record P Mt observation s
  = {| res := match step_mask (stepped P observation s) with
              | Ok _ => Raise (TypeError "unexpected keyword argument mask")
              | Raise e => Raise e
              end;
       post := stepped P observation s;
       events := [EvEnvStep (step_policy observation s).1.1] |}.
Proof.
  rewrite take_step_record_run. cbv zeta.
  by destruct (step_mask _).
Qed.

(** X2: with [_handle_step] as [RLAlgorithm] defines it, every call of
    [_take_step_in_env] raises: a [TypeError] for the [mask] keyword, unless
    reading [num_blocks] or [max_num_blocks] raised an [AttributeError]
    first.  By then the environment has been stepped and
    [_n_env_steps_total] counts the step, but neither the path builder nor
    the replay buffer has seen the transition, so an epoch with at least
    one step never completes. *)
Theorem base_class_step_raises (observation : Obs) (s : State) :
  let o := _take_step_in_env P Mt observation s in
  res o = match step_mask (stepped P observation s) with
          | Ok _ => Raise (TypeError "unexpected keyword argument mask")
          | Raise e => Raise e
          end
  ∧ is_ok (res o) = false
  ∧ events o = [EvEnvStep (step_policy observation s).1.1]
  ∧ training_env (post o) = (step_answer P observation s).2
  ∧ _n_env_steps_total (post o) = _n_env_steps_total s + 1
  ∧ _current_path_builder (post o) = _current_path_builder s
  ∧ replay_buffer (post o) = replay_buffer s
  ∧ ∀ epoch s',
      0 < num_env_steps_per_epoch P →
      is_ok (res (online_epoch D P Mt epoch s')) = false
      ∧ is_ok (res (batch_epoch D P Mt epoch s')) = false.
Proof.
  assert (Hstep : ∀ ob s1, is_ok (res (_take_step_in_env P Mt ob s1)) = false).
  { intros ob s1. rewrite take_step_in_env_run. cbv zeta.
    rewrite base_take_step_record_run. cbn [res].
    by destruct (step_mask _). }
  cbv zeta. rewrite take_step_in_env_run. cbv zeta.
  rewrite base_take_step_record_run. cbn [res post events].
  split; [by destruct (step_mask _)|].
  split; [by destruct (step_mask _)|].
  split; [by destruct (step_mask _)|].
  split; [by destruct (step_mask _)|].
  split; [by destruct (step_mask _)|].
  split; [by destruct (step_mask _)|].
  split; [by destruct (step_mask _)|].
  intros epoch s' Hpos.
  assert (Hraise : ∀ {A B} (m : M A) (f : A → M B) s1,
            is_ok (res (m s1)) = false → is_ok (res ((m ≫= f) s1)) = false).
  { intros A B m f s1. rewrite bind_run. by destruct (res (m s1)). }
  destruct (Z.to_nat (num_env_steps_per_epoch P)) as [|n] eqn:Hn; [lia|].
  split.
  - unfold online_epoch. rewrite epoch_prologue_split, bind_run, Hn.
    destruct (res ((_start_epoch epoch ≫= _) s')) as [ob|e]; [|done].
    cbn [res prefix_events]. cbv beta. apply Hraise.
    cbn [online_steps]. apply Hraise. apply Hstep.
  - unfold batch_epoch. rewrite epoch_prologue_split, bind_run, Hn.
    destruct (res ((_start_epoch epoch ≫= _) s')) as [ob|e]; [|done].
    cbn [res prefix_events]. cbv beta. apply Hraise.
    cbn [batch_steps]. apply Hraise. apply Hstep.
Qed.

End BaseClassStep.
